(** * Tax-Calculator [Records]: extrapolation and imputation of tax-filing units

    A shallow embedding of [taxcalc/records.py] (class [Records]) and the
    properties of its year-advance, factor-normalisation, imputation and
    loading code.

    Modelling conventions.
    - Every column of the record store is a numpy array of dtype [float64]
      or [int64], the dtype its input column had.  The entries of a
      [float64] array are modelled as exact rationals [Q] (float64 without
      rounding, infinities or NaN), those of an [int64] array as integers
      [Z] (no overflow).  An expression reads the entries of either as
      amounts in [Q]; a result written back into an [int64] array loses its
      fraction, as the C cast of numpy does.  Equality of amounts is [Qeq]
      ([==]).  A division by zero, where numpy gives an infinity or NaN, has
      the value [Q] gives it, [x / 0 == 0].  The operator [/] is true
      division.
    - Columns are aligned: each has [dim] entries, as [_read_data] builds
      them.  An expression over several columns is evaluated record by
      record.
    - A Python method that mutates [self] and may raise is a function
      [Records -> Records * outcome A]: the state reached when an exception
      leaves the method is the state the caller observes afterwards.
    - pandas marks a missing value with NaN.  The only NaN the modelled code
      creates is the first row of [pct_change]; it is the [None] row of a
      normalised factor table. *)

From Stdlib Require Import ZArith QArith Qminmax Qround.
From Stdlib Require Import List String Ascii Bool Lia Lqa DecimalString.
Import ListNotations.

Open Scope string_scope.
Open Scope Q_scope.

(* ================================================================== *)
(** * Python values: exceptions and outcomes *)

Module Py.

(** The built-in exceptions the modelled code can raise. *)
Inductive exn : Type :=
| IOError
| ValueError
| KeyError
| IndexError
| UnboundLocalError.

(** [LookupError] is the base class of [KeyError] and [IndexError]. *)
Definition is_LookupError (e : exn) : bool :=
  match e with
  | KeyError | IndexError => true
  | _ => false
  end.

(** Result of running a piece of code.  [Nan] reports that a column was
    multiplied by a NaN factor.  numpy returns normally from such a
    multiplication, with NaN entries, and the calling method goes on;
    rationals cannot hold those entries, so the model stops at the first
    such multiplication and reports the state reached there.  What is
    proved of a run that ends in [Nan] is only what the statements before
    it did and what no statement after it touches. *)
Inductive outcome (A : Type) : Type :=
| Ok (a : A)
| Raise (e : exn)
| Nan.

Arguments Ok {A} a.
Arguments Raise {A} e.
Arguments Nan {A}.

Definition obind {A B} (o : outcome A) (k : A -> outcome B) : outcome B :=
  match o with
  | Ok a => k a
  | Raise e => Raise e
  | Nan => Nan
  end.

(** Elementwise evaluation of a fallible expression: the first failing
    element decides. *)
Fixpoint omap {A B} (f : A -> outcome B) (l : list A) : outcome (list B) :=
  match l with
  | [] => Ok []
  | a :: l' => obind (f a) (fun b => obind (omap f l') (fun bs => Ok (b :: bs)))
  end.

(** The argument of a loader: a DataFrame, a string, or anything else. *)
Inductive arg (T : Type) : Type :=
| DataFrame (df : T)
| Str (s : string)
| Other.

Arguments DataFrame {T} df.
Arguments Str {T} s.
Arguments Other {T}.

(** [str(n)] for an integer. *)
Definition str (n : Z) : string := NilZero.string_of_int (Z.to_int n).

(** The built-ins [max(a, b)] and [min(a, b)]: the first argument is kept
    unless the second is strictly larger (smaller). *)
Definition builtin_max (a b : Q) : Q := if Qle_bool b a then a else b.
Definition builtin_min (a b : Q) : Q := if Qle_bool a b then a else b.

(** Comparisons as numpy evaluates them on one element. *)
Definition np_ge (a b : Q) : bool := Qle_bool b a.
Definition np_gt (a b : Q) : bool := negb (Qle_bool a b).
Definition np_eq (a b : Q) : bool := Qeq_bool a b.
Definition np_ne (a b : Q) : bool := negb (Qeq_bool a b).

(** [a[k]] for a numpy array and an integer [k]: negative indices count
    from the end, anything outside [-len, len) raises [IndexError], and so
    does an index that is not an integer. *)
Definition take (a : list Q) (k : Q) : outcome Q :=
  let z := Qfloor k in
  let n := Z.of_nat (List.length a) in
  if negb (Qeq_bool k (inject_Z z)) then Raise IndexError
  else if ((0 <=? z) && (z <? n))%Z then Ok (nth (Z.to_nat z) a 0)
  else if ((- n <=? z) && (z <? 0))%Z then Ok (nth (Z.to_nat (z + n)) a 0)
  else Raise IndexError.

(** A numpy array of one of the two dtypes a column can have.  An [int64]
    array holds integers, a [float64] array amounts. *)
Inductive ndarray : Type :=
| Int64 (data : list Z)
| Float64 (data : list Q).

Definition is_int64 (a : ndarray) : bool :=
  match a with
  | Int64 _ => true
  | Float64 _ => false
  end.

(** The entries of an array as amounts: what an expression reads. *)
Definition values (a : ndarray) : list Q :=
  match a with
  | Int64 l => map inject_Z l
  | Float64 l => l
  end.

(** The C cast of a float to an integer: the fraction is dropped, so the
    result is the nearest integer toward zero.  numpy applies it when a
    float is written into an [int64] array. *)
Definition truncate (x : Q) : Z := Z.quot (Qnum x) (Zpos (Qden x)).

(** What an entry of array [a] holds after [x] is written into it. *)
Definition stored (a : ndarray) (x : Q) : Q :=
  match a with
  | Int64 _ => inject_Z (truncate x)
  | Float64 _ => x
  end.

(** An elementwise operation whose result goes back into the array it
    reads, [np.multiply(a, b, out=a, casting='unsafe')] or
    [a[:] = f(a)]: the array keeps its dtype. *)
Definition write_back (f : Q -> Q) (a : ndarray) : ndarray :=
  match a with
  | Int64 l => Int64 (map (fun z => truncate (f (inject_Z z))) l)
  | Float64 l => Float64 (map f l)
  end.

(** The array numpy makes of the value [v] of an expression: [int64] when
    every operand of the arithmetic is [int64], [float64] otherwise. *)
Definition result_array (operands : list ndarray) (v : list Q) : ndarray :=
  if forallb is_int64 operands then Int64 (map truncate v) else Float64 v.

End Py.

Import Py.

(* ================================================================== *)
(** * Growth-factor table *)

Module Factors.

(** The columns of the blowup-factor file, as [extrapolate_2009_puf]
    lists them. *)
Inductive series : Type :=
| AGDPN | ATXPY | AWAGE | ASCHCI | ASCHCL | ASCHF | AINTS | ADIVS
| ASCHEI | ASCHEL | ACGNS | ABOOK | ARETS | APOPN | ACPIU | APOPDEP
| ASOCSEC | ACPIM | AUCOMP | APOPSNR | AIPD.

Definition series_eq_dec (a b : series) : {a = b} + {a <> b}.
Proof. decide equality. Defined.

Definition series_eqb (a b : series) : bool :=
  if series_eq_dec a b then true else false.

(** One row of the file: a value for every column. *)
Definition row : Type := series -> Q.

(** The file as read ([index_col='YEAR']): rows in file order, each under
    its year label. *)
Definition table : Type := list (Z * row).

(** A normalised table: [None] is a row of NaN. *)
Definition ntable : Type := list (Z * option row).

(** Label lookup [BF.loc[year]]: the row under the label, if any. *)
Fixpoint loc {A} (t : list (Z * A)) (year : Z) : option A :=
  match t with
  | [] => None
  | (y, r) :: t' => if (y =? year)%Z then Some r else loc t' year
  end.

Definition set_col (r : row) (s : series) (v : Q) : row :=
  fun s' => if series_eqb s' s then v else r s'.

(** [BF.s = BF.s / BF.p]: column [s] is divided, row by row, by column
    [p]. *)
Definition divide_column (s p : series) (t : table) : table :=
  map (fun yr => (fst yr, set_col (snd yr) s (snd yr s / snd yr p))) t.

(** The thirteen column assignments of [_read_blowup], in source order. *)
Definition per_capita : list (series * series) :=
  [ (AGDPN, APOPN); (ATXPY, APOPN); (AWAGE, APOPN); (ASCHCI, APOPN);
    (ASCHCL, APOPN); (ASCHF, APOPN); (AINTS, APOPN); (ADIVS, APOPN);
    (ASCHEI, APOPN); (ASCHEL, APOPN); (ACGNS, APOPN); (ABOOK, APOPN);
    (ASOCSEC, APOPSNR) ].

Definition divide_columns (t : table) : table :=
  fold_left (fun t sp => divide_column (fst sp) (snd sp) t) per_capita t.

(** The divisor the assignments give a column, if they divide it. *)
Definition divisor (s : series) : option series :=
  option_map snd (find (fun sp => series_eqb (fst sp) s) per_capita).

(** [DataFrame.shift(1)]: every row moves down by one; the first row has
    no predecessor. *)
Fixpoint shift_from (prev : option row) (t : table) : list (Z * option row) :=
  match t with
  | [] => []
  | (y, r) :: t' => (y, prev) :: shift_from (Some r) t'
  end.

Definition shift (t : table) : list (Z * option row) := shift_from None t.

(** [DataFrame.pct_change()] is [data / data.shift(1) - 1]; a missing
    predecessor gives a row of NaN. *)
Fixpoint pct_change_rows (t : table) (sh : list (Z * option row)) : ntable :=
  match t, sh with
  | (y, r) :: t', (_, p) :: sh' =>
      (y, option_map (fun p => fun s => r s / p s - 1) p)
        :: pct_change_rows t' sh'
  | _, _ => []
  end.

Definition pct_change (t : table) : ntable := pct_change_rows t (shift t).

(** [1 + df]. *)
Definition one_plus (t : ntable) : ntable :=
  map (fun yr => (fst yr, option_map (fun r => fun s => 1 + r s) (snd yr))) t.

(** Lines 711-724 of [_read_blowup]: per-capita division, then
    [BF = 1 + BF.pct_change()]. *)
Definition normalize (t : table) : ntable :=
  one_plus (pct_change (divide_columns t)).

(** ** Row-wise reading of the normalisation

    The two definitions below are not in the source: they describe what
    [normalize] does to one row, and are proved equal to it. *)

(** What the thirteen assignments do to one row. *)
Definition per_capita_row (r : row) : row :=
  fold_left (fun r sp => set_col r (fst sp) (r (fst sp) / r (snd sp)))
            per_capita r.

(** [1 + pct_change()], walking the table with the previous row in hand. *)
Fixpoint growth_from (prev : option row) (t : table) : ntable :=
  match t with
  | [] => []
  | (y, r) :: t' =>
      (y, option_map (fun p => fun s => 1 + (r s / p s - 1)) prev)
        :: growth_from (Some r) t'
  end.

(** [BF.s[year]]: [KeyError] without a row for [year]. *)
Definition getitem (bf : ntable) (s : series) (year : Z) : outcome Q :=
  match loc bf year with
  | None => Raise KeyError
  | Some None => Nan
  | Some (Some r) => Ok (r s)
  end.

End Factors.

Import Factors.

(* ================================================================== *)
(** * Sampling-weight table *)

Module Weights.

(** The weights file: one named column [WT<year>] per year, each with one
    entry (weight times 100) per record. *)
Definition wtable : Type := list (string * list Q).

(** [WT[name]]: [KeyError] without such a column. *)
Fixpoint getitem (wt : wtable) (name : string) : outcome (list Q) :=
  match wt with
  | [] => Raise KeyError
  | (n, col) :: wt' => if String.eqb n name then Ok col else getitem wt' name
  end.

End Weights.

Import Weights.

(* ================================================================== *)
(** * The record store *)

(** [e22250 = p22250] and the six assignments after it in [_read_data] bind a
    second attribute name to the same array.  No modelled method rebinds
    either name of such a pair, so an attribute is resolved to the name that
    owns the array. *)
Definition alias (name : string) : string :=
  if String.eqb name "e22250" then "p22250"
  else if String.eqb name "e04470" then "p04470"
  else if String.eqb name "e23250" then "p23250"
  else if String.eqb name "e25470" then "p25470"
  else if String.eqb name "e08000" then "p08000"
  else if String.eqb name "e60100" then "p60100"
  else if String.eqb name "e27860" then "s27860"
  else name.

(** An instance of [Records] after construction: [dim] records, the year,
    one array of length [dim] per attribute of [NAMES] and [ZEROED_NAMES],
    and the two tables. *)
Record Records : Type := mkRecords {
  dim : nat;
  _current_year : Z;
  store : string -> ndarray;
  BF : ntable;
  WT : wtable
}.

(** The entries of the array a name owns. *)
Definition arrays (self : Records) (n : string) : list Q :=
  values (store self n).

(** [self.name] as an expression reads it, and as the array it is. *)
Definition getattr (self : Records) (name : string) : list Q :=
  arrays self (alias name).

Definition getarray (self : Records) (name : string) : ndarray :=
  store self (alias name).

(** [setattr(self, name, a)] for an array [a]. *)
Definition setattr_array (self : Records) (name : string) (a : ndarray)
  : Records :=
  mkRecords (dim self) (_current_year self)
            (fun n => if String.eqb n (alias name) then a else store self n)
            (BF self) (WT self).

(** [setattr(self, name, v)] for a new [float64] array with the entries
    [v]. *)
Definition setattr (self : Records) (name : string) (v : list Q) : Records :=
  setattr_array self name (Float64 v).

(** An operation on the array of [name] that writes its result into that
    array. *)
Definition in_place (self : Records) (name : string) (f : Q -> Q)
  : Records :=
  mkRecords (dim self) (_current_year self)
            (fun n => if String.eqb n (alias name)
                      then write_back f (getarray self name)
                      else store self n)
            (BF self) (WT self).

(** What the array of [name] holds after [x] is written into an entry. *)
Definition stored_in (self : Records) (name : string) (x : Q) : Q :=
  stored (getarray self name) x.

Definition set_current_year (self : Records) (y : Z) : Records :=
  mkRecords (dim self) y (store self) (BF self) (WT self).

Definition set_BF (self : Records) (bf : ntable) : Records :=
  mkRecords (dim self) (_current_year self) (store self) bf (WT self).

Definition set_WT (self : Records) (wt : wtable) : Records :=
  mkRecords (dim self) (_current_year self) (store self) (BF self) wt.

(** The [current_year] property. *)
Definition current_year (self : Records) : Z := _current_year self.

(** ** Methods: state and exceptions *)

Definition M (A : Type) : Type := Records -> Records * outcome A.

Definition ret {A} (a : A) : M A := fun self => (self, Ok a).

Definition bind {A B} (m : M A) (k : A -> M B) : M B :=
  fun self =>
    match m self with
    | (self', Ok a) => k a self'
    | (self', Raise e) => (self', Raise e)
    | (self', Nan) => (self', Nan)
    end.

Definition lift {A} (o : outcome A) : M A := fun self => (self, o).

Definition get_self : M Records := fun self => (self, Ok self).

Definition modify (f : Records -> Records) : M unit :=
  fun self => (f self, Ok tt).

Notation "x <- m ;; k" := (bind m (fun x => k))
  (at level 61, m at next level, right associativity).
Notation "m ;; k" := (bind m (fun _ => k))
  (at level 61, right associativity).

(** The values of record [i]: what an elementwise expression reads. *)
Definition unit_at (self : Records) (i : nat) : string -> Q :=
  fun name => nth i (getattr self name) 0.

(** An elementwise numpy expression over columns of [self]: its value at
    every record. *)
Definition vectorized (self : Records) (e : (string -> Q) -> Q) : list Q :=
  map (fun i => e (unit_at self i)) (seq 0 (dim self)).

Definition vectorized_outcome (self : Records)
    (e : (string -> Q) -> outcome Q) : outcome (list Q) :=
  omap (fun i => e (unit_at self i)) (seq 0 (dim self)).

(** [np.where(c, a, b)] at one element. *)
Definition np_where {A} (c : bool) (a b : A) : A := if c then a else b.

(* ================================================================== *)
(** * Extrapolation: [_blowup] and [increment_year] *)

(** The statement forms of [_blowup]. *)
Inductive stmt : Type :=
| TimesEqualBF (f : string) (s : series)
    (** [times_equal(self.f, self.BF.s[year])] *)
| TimesEqualOne (f : string)
    (** [times_equal(self.f, 1.)] *)
| WhereSign (f : string) (pos neg : series)
    (** [self.f[:] = np.where(self.f >= 0, self.f * self.BF.pos[year],
                              self.f * self.BF.neg[year])] *)
| WhereNonneg (f : string) (pos : series).
    (** [self.f[:] = np.where(self.f >= 0., self.f * self.BF.pos[year],
                              self.f)] *)

Definition target (st : stmt) : string :=
  match st with
  | TimesEqualBF f _ | TimesEqualOne f | WhereSign f _ _ | WhereNonneg f _ => f
  end.

(** The body of [_blowup], statement by statement. *)
Definition blowup_body : list stmt :=
  [
    TimesEqualBF "e00200" AWAGE;
    TimesEqualBF "e00200p" AWAGE;
    TimesEqualBF "e00200s" AWAGE;
    TimesEqualBF "e00300" AINTS;
    TimesEqualBF "e00400" AINTS;
    TimesEqualBF "e00600" ADIVS;
    TimesEqualBF "e00650" ADIVS;
    TimesEqualBF "e00700" ATXPY;
    TimesEqualBF "e00800" ATXPY;
    WhereSign "e00900" ASCHCI ASCHCL;
    WhereSign "e00900s" ASCHCI ASCHCL;
    WhereSign "e00900p" ASCHCI ASCHCL;
    WhereNonneg "e01000" ACGNS;
    TimesEqualBF "e01100" ACGNS;
    TimesEqualBF "e01200" ACGNS;
    TimesEqualBF "e01400" ATXPY;
    TimesEqualBF "e01500" ATXPY;
    TimesEqualBF "e01700" ATXPY;
    WhereSign "e02000" ASCHEI ASCHEL;
    TimesEqualBF "e02100" ASCHF;
    TimesEqualBF "e02100p" ASCHF;
    TimesEqualBF "e02100s" ASCHF;
    TimesEqualBF "e02300" AUCOMP;
    TimesEqualBF "e02400" ASOCSEC;
    TimesEqualBF "e02500" ASOCSEC;
    TimesEqualBF "e03150" ATXPY;
    TimesEqualBF "e03210" ATXPY;
    TimesEqualBF "e03220" ATXPY;
    TimesEqualBF "e03230" ATXPY;
    TimesEqualBF "e03260" ASCHCI;
    TimesEqualBF "e03270" ACPIM;
    TimesEqualBF "e03240" AGDPN;
    TimesEqualBF "e03290" ACPIM;
    TimesEqualBF "e03300" ATXPY;
    TimesEqualBF "e03400" ATXPY;
    TimesEqualBF "e03500" ATXPY;
    TimesEqualOne "e00100";
    TimesEqualOne "p04470";
    TimesEqualOne "e04250";
    TimesEqualOne "e04600";
    TimesEqualOne "e04800";
    TimesEqualOne "e05100";
    TimesEqualOne "e05200";
    TimesEqualOne "e05800";
    TimesEqualOne "e06000";
    TimesEqualOne "e06200";
    TimesEqualOne "e06300";
    TimesEqualOne "e09600";
    TimesEqualOne "e07180";
    TimesEqualOne "e07200";
    TimesEqualOne "e07220";
    TimesEqualBF "e07230" ATXPY;
    TimesEqualBF "e07240" ATXPY;
    TimesEqualBF "e07260" ATXPY;
    TimesEqualBF "e07300" ABOOK;
    TimesEqualBF "e07400" ABOOK;
    TimesEqualOne "e07600";
    TimesEqualBF "p08000" ATXPY;
    TimesEqualOne "e07150";
    TimesEqualOne "e06500";
    TimesEqualOne "e08800";
    TimesEqualOne "e09400";
    TimesEqualBF "e09700" ATXPY;
    TimesEqualBF "e09800" ATXPY;
    TimesEqualBF "e09900" ATXPY;
    TimesEqualOne "e10300";
    TimesEqualBF "e10700" ATXPY;
    TimesEqualBF "e10900" ATXPY;
    TimesEqualBF "e59560" ATXPY;
    TimesEqualBF "e59680" ATXPY;
    TimesEqualBF "e59700" ATXPY;
    TimesEqualBF "e59720" ATXPY;
    TimesEqualBF "e11550" ATXPY;
    TimesEqualBF "e11070" ATXPY;
    TimesEqualBF "e11100" ATXPY;
    TimesEqualBF "e11200" ATXPY;
    TimesEqualBF "e11300" ATXPY;
    TimesEqualBF "e11400" ATXPY;
    TimesEqualBF "e11570" ATXPY;
    TimesEqualBF "e11580" ATXPY;
    TimesEqualBF "e11581" ATXPY;
    TimesEqualBF "e11582" ATXPY;
    TimesEqualBF "e11583" ATXPY;
    TimesEqualBF "e10605" ATXPY;
    TimesEqualOne "e11900";
    TimesEqualOne "e12000";
    TimesEqualOne "e12200";
    TimesEqualBF "e17500" ACPIM;
    TimesEqualBF "e18400" ATXPY;
    TimesEqualBF "e18500" ATXPY;
    TimesEqualBF "e19200" AIPD;
    TimesEqualBF "e19550" ATXPY;
    TimesEqualBF "e19800" ATXPY;
    TimesEqualBF "e20100" ATXPY;
    TimesEqualBF "e19700" ATXPY;
    TimesEqualBF "e20550" ATXPY;
    TimesEqualBF "e20600" ATXPY;
    TimesEqualBF "e20400" ATXPY;
    TimesEqualBF "e20800" ATXPY;
    TimesEqualBF "e20500" ATXPY;
    TimesEqualBF "e21040" ATXPY;
    TimesEqualBF "p22250" ACGNS;
    TimesEqualBF "e22320" ACGNS;
    TimesEqualBF "e22370" ACGNS;
    TimesEqualBF "p23250" ACGNS;
    TimesEqualBF "e24515" ACGNS;
    TimesEqualBF "e24516" ACGNS;
    TimesEqualBF "e24518" ACGNS;
    TimesEqualBF "e24535" ACGNS;
    TimesEqualBF "e24560" ACGNS;
    TimesEqualBF "e24598" ACGNS;
    TimesEqualBF "e24615" ACGNS;
    TimesEqualBF "e24570" ACGNS;
    TimesEqualBF "p25350" ASCHEI;
    TimesEqualBF "p25380" ASCHEI;
    TimesEqualBF "p25470" ASCHEI;
    TimesEqualBF "p25700" ASCHEI;
    TimesEqualBF "e25820" ASCHEI;
    TimesEqualBF "e25850" ASCHEI;
    TimesEqualBF "e25860" ASCHEI;
    TimesEqualBF "e25940" ASCHEI;
    TimesEqualBF "e25980" ASCHEI;
    TimesEqualBF "e25920" ASCHEI;
    TimesEqualBF "e25960" ASCHEI;
    TimesEqualBF "e26110" ASCHEI;
    TimesEqualBF "e26170" ASCHEI;
    TimesEqualBF "e26190" ASCHEI;
    TimesEqualBF "e26160" ASCHEI;
    TimesEqualBF "e26180" ASCHEI;
    TimesEqualBF "e26270" ASCHEI;
    TimesEqualBF "e26100" ASCHEI;
    TimesEqualBF "e26390" ASCHEI;
    TimesEqualBF "e26400" ASCHEI;
    TimesEqualBF "e27200" ASCHEI;
    TimesEqualBF "e30400" ASCHCI;
    TimesEqualBF "e30500" ASCHCI;
    TimesEqualBF "e32800" ATXPY;
    TimesEqualBF "e33000" ATXPY;
    TimesEqualBF "e53240" ATXPY;
    TimesEqualBF "e53280" ATXPY;
    TimesEqualBF "e53410" ATXPY;
    TimesEqualBF "e53300" ATXPY;
    TimesEqualBF "e53317" ATXPY;
    TimesEqualBF "e53458" ATXPY;
    TimesEqualBF "e58950" ATXPY;
    TimesEqualBF "e58990" ATXPY;
    TimesEqualBF "p60100" ATXPY;
    TimesEqualBF "p61850" ATXPY;
    TimesEqualBF "e60000" ATXPY;
    TimesEqualBF "e62100" ATXPY;
    TimesEqualBF "e62900" ATXPY;
    TimesEqualBF "e62720" ATXPY;
    TimesEqualBF "e62730" ATXPY;
    TimesEqualBF "e62740" ATXPY;
    TimesEqualBF "p65300" ATXPY;
    TimesEqualBF "p65400" ATXPY;
    TimesEqualBF "e68000" ATXPY;
    TimesEqualBF "e82200" ATXPY;
    TimesEqualBF "t27800" ATXPY;
    TimesEqualBF "s27860" ATXPY;
    TimesEqualBF "p27895" ATXPY;
    TimesEqualBF "e87530" ATXPY;
    TimesEqualBF "e87550" ATXPY;
    TimesEqualBF "e87521" ATXPY;
    TimesEqualOne "RECID";
    TimesEqualOne "s006";
    TimesEqualOne "s008";
    TimesEqualOne "s009";
    TimesEqualOne "WSAMP";
    TimesEqualOne "TXRT";
    TimesEqualBF "_cmbtp_itemizer" ATXPY;
    TimesEqualBF "_cmbtp_standard" ATXPY
  ].

(** [times_equal(a, b)]: [np.multiply(a, b, out=a, casting='unsafe')], on the
    array itself or, for a pandas column, on its [values].  The product goes
    back into [a]: a [float64] array holds the product, an [int64] array
    the product without its fraction. *)
Definition times_equal (name : string) (b : Q) (self : Records) : Records :=
  in_place self name (fun a => a * b).

(** The two [np.where] right-hand sides, at one element [x]. *)
Definition where_sign (fp fn x : Q) : Q :=
  np_where (np_ge x 0) (x * fp) (x * fn).

Definition where_nonneg (fp x : Q) : Q :=
  np_where (np_ge x 0) (x * fp) x.

Definition exec (year : Z) (st : stmt) : M unit :=
  match st with
  | TimesEqualBF f s =>
      self <- get_self ;;
      b <- lift (Factors.getitem (BF self) s year) ;;
      modify (times_equal f b)
  | TimesEqualOne f =>
      modify (times_equal f 1)
  | WhereSign f pos neg =>
      self <- get_self ;;
      fp <- lift (Factors.getitem (BF self) pos year) ;;
      fn <- lift (Factors.getitem (BF self) neg year) ;;
      modify (fun self => in_place self f (where_sign fp fn))
  | WhereNonneg f pos =>
      self <- get_self ;;
      fp <- lift (Factors.getitem (BF self) pos year) ;;
      modify (fun self => in_place self f (where_nonneg fp))
  end.

Fixpoint exec_all (year : Z) (body : list stmt) : M unit :=
  match body with
  | [] => ret tt
  | st :: rest => exec year st ;; exec_all year rest
  end.

Definition _blowup (year : Z) : M unit := exec_all year blowup_body.

Definition increment_year : M unit :=
  modify (fun self => set_current_year self (_current_year self + 1)) ;;
  modify (fun self => in_place self "FLPDYR" (fun y => y + 1)) ;;
  (* Implement Stage 1 Extrapolation blowup factors *)
  (self <- get_self ;; _blowup (_current_year self)) ;;
  (* Implement Stage 2 Extrapolation reweighting. *)
  self <- get_self ;;
  wt <- lift (Weights.getitem (WT self) ("WT" ++ str (current_year self))) ;;
  modify (fun self => setattr self "s006" (map (fun w => w / 100) wt)).

(** ** Reading of [_blowup] under a given factor row

    Not in the source: what one statement does to an element of its column
    and to the store once the row of the year is known; proved equal to
    [exec] below. *)

Definition scale (r : row) (st : stmt) (x : Q) : Q :=
  match st with
  | TimesEqualBF _ s => x * r s
  | TimesEqualOne _ => x * 1
  | WhereSign _ pos neg => where_sign (r pos) (r neg) x
  | WhereNonneg _ pos => where_nonneg (r pos) x
  end.

Definition step (r : row) (self : Records) (st : stmt) : Records :=
  in_place self (target st) (scale r st).

(** The array a statement writes. *)
Definition written (st : stmt) : string := alias (target st).

Definition stmt_eqb (a b : stmt) : bool :=
  match a, b with
  | TimesEqualBF f s, TimesEqualBF f' s' =>
      String.eqb f f' && series_eqb s s'
  | TimesEqualOne f, TimesEqualOne f' => String.eqb f f'
  | WhereSign f p n, WhereSign f' p' n' =>
      String.eqb f f' && (series_eqb p p' && series_eqb n n')
  | WhereNonneg f p, WhereNonneg f' p' =>
      String.eqb f f' && series_eqb p p'
  | _, _ => false
  end.

Fixpoint distinct (l : list string) : bool :=
  match l with
  | [] => true
  | x :: l' => negb (existsb (String.eqb x) l') && distinct l'
  end.

(* ================================================================== *)
(** * Imputation *)

(** The vectorised kernel [imputed_cmbtp_itemizer], at one record. *)
Definition imputed_cmbtp_itemizer
    (e17500 e00100 e18400 e62100 e00700 e04470 e21040 e18500 e20800 : Q) : Q :=
  let medical_limited :=
    builtin_max 0 (e17500 - builtin_max 0 e00100 * 0.075) in
  let medical_adjustment :=
    builtin_min medical_limited (0.025 * builtin_max 0 e00100) in
  let state_adjustment := builtin_max 0 e18400 in
  e62100 - medical_adjustment + e00700 + e04470 + e21040 -
  state_adjustment - e00100 - e18500 - e20800.

Definition _imputed_cmbtp_itemizer (self : Records) : list Q :=
  vectorized self (fun u =>
    imputed_cmbtp_itemizer (u "e17500") (u "e00100") (u "e18400")
                           (u "e62100") (u "e00700")
                           (u "p04470") (u "e21040")
                           (u "e18500") (u "e20800")).

(** standard deduction amount in 2009 *)
Definition std_2009 : list Q := [5700; 11400; 5700; 8350; 11400; 5700; 950].

(** Additional standard deduction for aged 2009 *)
Definition std_aged_2009 : list Q := [1400; 1100].

(** A filing status [std_2009[MARS - 1]] can look up. *)
Definition valid_status (mars : Q) : bool :=
  match take std_2009 (mars - 1) with
  | Ok _ => true
  | _ => false
  end.

(** The ratio of household head in total household income at one record;
    [total] is the local array of the source. *)
Definition earning_split (u : string -> Q) : Q :=
  let total := np_where (np_eq (u "MARS") 2)
                        (u "wage_head" + u "wage_spouse") 0 in
  np_where (np_ne total 0) (u "wage_head" / total) 1.

(** [self.e62100 - self.e00100 + self.e00700]: an [int64] array when the
    three columns are [int64], a [float64] array otherwise. *)
Definition combined_standard (self : Records) : ndarray :=
  result_array
    [getarray self "e62100"; getarray self "e00100"; getarray self "e00700"]
    (vectorized self (fun u => u "e62100" - u "e00100" + u "e00700")).

Definition _impute_variables : M unit :=
  self <- get_self ;;
  modify (fun s =>
    setattr s "_cmbtp_itemizer" (_imputed_cmbtp_itemizer self)) ;;
  self <- get_self ;;
  modify (fun s =>
    setattr_array s "_cmbtp_standard" (combined_standard self)) ;;
  (* impute number of taxpayers *)
  self <- get_self ;;
  modify (fun s => setattr s "_txpyers"
    (vectorized self (fun u =>
       np_where (np_eq (u "MARS") 2
                 || (np_eq (u "MARS") 3 || np_eq (u "MARS") 6))
                2 1))) ;;
  (* impute number of extra standard deductions for aged *)
  self <- get_self ;;
  numextra <- lift (vectorized_outcome self (fun u =>
    obind (take std_2009 (u "MARS" - 1)) (fun std =>
    Ok (np_where (np_eq (u "FDED") 2 && np_gt (u "e04470") std)
          (np_where (np_ne (u "MARS") 2 && np_ne (u "MARS") 3)
                    ((u "e04470" - std) / nth 0 std_aged_2009 0)
                    ((u "e04470" - std) / nth 1 std_aged_2009 0))
          (np_where (np_gt (u "e02400") 0) (u "_txpyers") 0))))) ;;
  modify (fun s => setattr s "_numextra" numextra) ;;
  (* impute the ratio of household head in total household income *)
  self <- get_self ;;
  modify (fun s =>
    setattr s "_earning_split" (vectorized self earning_split)) ;;
  self <- get_self ;;
  modify (fun s => setattr s "e00200p"
    (vectorized self (fun u => u "_earning_split" * u "e00200"))) ;;
  self <- get_self ;;
  modify (fun s => setattr s "e00200s"
    (vectorized self (fun u => (1 - u "_earning_split") * u "e00200"))) ;;
  self <- get_self ;;
  modify (fun s => setattr s "e00900p"
    (vectorized self (fun u => u "_earning_split" * u "e00900"))) ;;
  self <- get_self ;;
  modify (fun s => setattr s "e00900s"
    (vectorized self (fun u => (1 - u "_earning_split") * u "e00900"))) ;;
  self <- get_self ;;
  modify (fun s => setattr s "e02100p"
    (vectorized self (fun u => u "_earning_split" * u "e02100"))) ;;
  self <- get_self ;;
  modify (fun s => setattr s "e02100s"
    (vectorized self (fun u => (1 - u "_earning_split") * u "e02100"))).

(* ================================================================== *)
(** * Loading the factor and weight tables *)

Section Loading.

(** The parsed content of a CSV file. *)
Variable T : Type.

(** What the loaders see of the outside: the files on disk and the files
    bundled in the [taxcalc] distribution, by path. *)
Record World : Type := mkWorld {
  disk : string -> option T;
  egg : string -> option T
}.

(** What [pd.read_csv] is given: a path, or an open resource stream. *)
Inductive source : Type :=
| Path (p : string)
| Stream (content : T).

Definition os_path_exists (w : World) (p : string) : bool :=
  match disk w p with Some _ => true | None => false end.

(** [resource_stream(Requirement.parse("taxcalc"), path)]: [IOError] when
    the distribution holds no such file. *)
Definition resource_stream (w : World) (p : string) : outcome source :=
  match egg w p with
  | Some c => Ok (Stream c)
  | None => Raise IOError
  end.

(** [pd.read_csv]: [IOError] for a path that cannot be opened. *)
Definition read_csv (w : World) (src : source) : outcome T :=
  match src with
  | Path p => match disk w p with Some c => Ok c | None => Raise IOError end
  | Stream c => Ok c
  end.

(** [os.path.join("taxcalc", name)]. *)
Definition path_in_egg (name : string) : string := "taxcalc/" ++ name.

(** The [if]/[elif]/[else] that opens both loaders.  The result is the
    local variable it binds: [None] when control leaves the [try] through
    [except IOError], whose body builds a [ValueError] and drops it. *)
Definition read_table (w : World) (filename : string) (a : arg T)
  : outcome (option T) :=
  match a with
  | DataFrame df => Ok (Some df)
  | Str s =>
      match obind (if negb (os_path_exists w s)
                   then resource_stream w (path_in_egg filename)
                   else Ok (Path s))
                  (read_csv w) with
      | Ok t => Ok (Some t)
      | Raise IOError => Ok None
      | Raise e => Raise e
      | Nan => Nan
      end
  | Other => Raise ValueError
  end.

(** Reading a local variable: [UnboundLocalError] when it was never
    assigned. *)
Definition local (v : option T) : outcome T :=
  match v with
  | Some t => Ok t
  | None => Raise UnboundLocalError
  end.

End Loading.

Arguments mkWorld {T} disk egg.
Arguments disk {T} w p.
Arguments egg {T} w p.
Arguments read_table {T} w filename a.
Arguments local {T} v.

Definition WEIGHTS_FILENAME : string := "WEIGHTS.csv".
Definition BLOWUP_FACTORS_FILENAME : string := "StageIFactors.csv".

Definition _read_weights (w : World wtable) (weights : arg wtable) : M unit :=
  WT <- lift (read_table w WEIGHTS_FILENAME weights) ;;
  wt <- lift (local WT) ;;
  modify (fun self => set_WT self wt).

Definition _read_blowup (w : World table) (blowup_factors : arg table)
  : M unit :=
  BF <- lift (read_table w BLOWUP_FACTORS_FILENAME blowup_factors) ;;
  bf <- lift (local BF) ;;
  modify (fun self => set_BF self (normalize bf)).

(* ================================================================== *)
(** * Sample data *)

Module Sample.

(** Two consecutive years of a raw factor file. *)
Definition raw_2009 : row :=
  fun s => match s with
           | APOPN => 100 | APOPSNR => 50 | AWAGE => 200 | ASOCSEC => 10
           | _ => 100
           end.

Definition raw_2010 : row :=
  fun s => match s with
           | APOPN => 110 | APOPSNR => 60 | AWAGE => 231 | ASOCSEC => 15
           | _ => 110
           end.

Definition raw : table := [(2009%Z, raw_2009); (2010%Z, raw_2010)].

(** Normalised factors for 2010. *)
Definition factors_2010 : row :=
  fun s => match s with
           | AWAGE => 1.05 | ASCHCI => 1.1 | ASCHCL => 0.9
           | ASCHEI => 1.1 | ASCHEL => 0.9 | ACGNS => 1.2
           | _ => 1
           end.

Definition bf : ntable := [(2009%Z, None); (2010%Z, Some factors_2010)].

Definition wt : wtable := [("WT2009", [100; 200]); ("WT2010", [150; 250])].

(** Two filing units: a joint return and a single one. *)
Definition columns (name : string) : list Q :=
  if String.eqb name "FLPDYR" then [2009; 2009]
  else if String.eqb name "MARS" then [2; 1]
  else if String.eqb name "wage_head" then [600; 300]
  else if String.eqb name "wage_spouse" then [400; 0]
  else if String.eqb name "e00200" then [1000; 300]
  else if String.eqb name "e00900" then [-5; 40]
  else if String.eqb name "e01000" then [-7; 10]
  else if String.eqb name "e02000" then [20; -5]
  else [0; 0].

Definition recs : Records :=
  mkRecords 2 2009 (fun name => Float64 (columns name)) bf wt.

(** The same units in a year the factor table does not reach. *)
Definition recs_2010 : Records :=
  mkRecords 2 2010 (fun name => Float64 (columns name)) bf wt.


(** No file on disk, none in the distribution. *)
Definition nothing {T} : World T := mkWorld (fun _ => None) (fun _ => None).

End Sample.


(* ================================================================== *)
(** * Reading the records: [_read_data] and the constructor *)

(** A cell of a DataFrame: an integer or a float. *)
Inductive cell : Type :=
| Int (z : Z)
| Float (q : Q).

Definition value (c : cell) : Q :=
  match c with
  | Int z => inject_Z z
  | Float q => q
  end.

Definition is_Int (c : cell) : bool :=
  match c with
  | Int _ => true
  | Float _ => false
  end.

(** The integer a cell holds. *)
Definition as_int (c : cell) : Z :=
  match c with
  | Int z => z
  | Float q => truncate q
  end.

(** A pandas DataFrame of input data: the names of its columns and its
    rows of cells.  A column is [int64] when every cell of it is an
    integer, as pandas infers it, unless the frame carries it as
    [floating]; any other column is [float64].  A frame is taken to have
    the column [recid], which [tax_dta.recid] needs. *)
Record Frame : Type := mkFrame {
  header : list string;
  floating : string -> bool;
  cells : list (string -> cell)
}.

(** The rows of a frame as amounts. *)
Definition rows (df : Frame) : list (string -> Q) :=
  map (fun c => fun name => value (c name)) (cells df).

(** A frame of [float64] columns. *)
Definition float_frame (header : list string) (rows : list (string -> Q))
  : Frame :=
  mkFrame header (fun _ => true)
          (map (fun r => fun name => Float (r name)) rows).

Definition has_int64 (df : Frame) (name : string) : bool :=
  negb (floating df name) && forallb (fun c => is_Int (c name)) (cells df).

(** [df[name].values]: the array of the column, in the dtype of the
    column. *)
Definition column_values (df : Frame) (name : string) : ndarray :=
  if has_int64 df name
  then Int64 (map (fun c => as_int (c name)) (cells df))
  else Float64 (map (fun c => value (c name)) (cells df)).

(** [df[name].values]: [KeyError] without such a column. *)
Definition column (df : Frame) (name : string) : outcome ndarray :=
  if existsb (String.eqb name) (header df)
  then Ok (column_values df name)
  else Raise KeyError.

(** [tax_dta[tax_dta.recid != 999999]]: the rows are filtered, every
    column keeps its dtype. *)
Definition drop_aggregate (df : Frame) : Frame :=
  mkFrame (header df) (fun name => negb (has_int64 df name))
          (filter (fun c => np_ne (value (c "recid")) 999999) (cells df)).

Definition PUF_YEAR : Z := 2009.

(** pairs of 'name of attribute', 'column name' - often the same *)
Definition NAMES : list (string * string) :=
  [
    ("AGIR1", "agir1");
    ("DSI", "dsi");
    ("EFI", "efi");
    ("EIC", "eic");
    ("ELECT", "elect");
    ("FDED", "fded");
    ("FLPDYR", "flpdyr");
    ("FLPDMO", "flpdmo");
    ("f2441", "f2441");
    ("f3800", "f3800");
    ("f6251", "f6251");
    ("f8582", "f8582");
    ("f8606", "f8606");
    ("IE", "ie");
    ("MARS", "mars");
    ("MIDR", "midr");
    ("n20", "n20");
    ("n24", "n24");
    ("n25", "n25");
    ("PREP", "prep");
    ("SCHB", "schb");
    ("SCHCF", "schcf");
    ("SCHE", "sche");
    ("TFORM", "tform");
    ("TXST", "txst");
    ("XFPT", "xfpt");
    ("XFST", "xfst");
    ("XOCAH", "xocah");
    ("XOCAWH", "xocawh");
    ("XOODEP", "xoodep");
    ("XOPAR", "xopar");
    ("XTOT", "xtot");
    ("e00200", "e00200");
    ("e00300", "e00300");
    ("e00400", "e00400");
    ("e00600", "e00600");
    ("e00650", "e00650");
    ("e00700", "e00700");
    ("e00800", "e00800");
    ("e00900", "e00900");
    ("e01000", "e01000");
    ("e01100", "e01100");
    ("e01200", "e01200");
    ("e01400", "e01400");
    ("e01500", "e01500");
    ("e01700", "e01700");
    ("e02000", "e02000");
    ("e02100", "e02100");
    ("e02300", "e02300");
    ("e02400", "e02400");
    ("e02500", "e02500");
    ("e03150", "e03150");
    ("e03210", "e03210");
    ("e03220", "e03220");
    ("e03230", "e03230");
    ("e03260", "e03260");
    ("e03270", "e03270");
    ("e03240", "e03240");
    ("e03290", "e03290");
    ("e03300", "e03300");
    ("e03400", "e03400");
    ("e03500", "e03500");
    ("e00100", "e00100");
    ("p04470", "p04470");
    ("e04250", "e04250");
    ("e04600", "e04600");
    ("e04800", "e04800");
    ("e05100", "e05100");
    ("e05200", "e05200");
    ("e05800", "e05800");
    ("e06000", "e06000");
    ("e06200", "e06200");
    ("e06300", "e06300");
    ("e09600", "e09600");
    ("e07180", "e07180");
    ("e07200", "e07200");
    ("e07220", "e07220");
    ("e07230", "e07230");
    ("e07240", "e07240");
    ("e07260", "e07260");
    ("e07300", "e07300");
    ("e07400", "e07400");
    ("e07600", "e07600");
    ("p08000", "p08000");
    ("e07150", "e07150");
    ("e06500", "e06500");
    ("e08800", "e08800");
    ("e09400", "e09400");
    ("e09700", "e09700");
    ("e09800", "e09800");
    ("e09900", "e09900");
    ("e10300", "e10300");
    ("e10700", "e10700");
    ("e10900", "e10900");
    ("e59560", "e59560");
    ("e59680", "e59680");
    ("e59700", "e59700");
    ("e59720", "e59720");
    ("e11550", "e11550");
    ("e11070", "e11070");
    ("e11100", "e11100");
    ("e11200", "e11200");
    ("e11300", "e11300");
    ("e11400", "e11400");
    ("e11570", "e11570");
    ("e11580", "e11580");
    ("e11581", "e11581");
    ("e11582", "e11582");
    ("e11583", "e11583");
    ("e10605", "e10605");
    ("e11900", "e11900");
    ("e12000", "e12000");
    ("e12200", "e12200");
    ("e17500", "e17500");
    ("e18400", "e18400");
    ("e18500", "e18500");
    ("e19200", "e19200");
    ("e19550", "e19550");
    ("e19800", "e19800");
    ("e20100", "e20100");
    ("e19700", "e19700");
    ("e20550", "e20550");
    ("e20600", "e20600");
    ("e20400", "e20400");
    ("e20800", "e20800");
    ("e20500", "e20500");
    ("e21040", "e21040");
    ("p22250", "p22250");
    ("e22320", "e22320");
    ("e22370", "e22370");
    ("p23250", "p23250");
    ("e24515", "e24515");
    ("e24516", "e24516");
    ("e24518", "e24518");
    ("e24535", "e24535");
    ("e24560", "e24560");
    ("e24598", "e24598");
    ("e24615", "e24615");
    ("e24570", "e24570");
    ("p25350", "p25350");
    ("p25380", "p25380");
    ("p25470", "p25470");
    ("p25700", "p25700");
    ("e25820", "e25820");
    ("e25850", "e25850");
    ("e25860", "e25860");
    ("e25940", "e25940");
    ("e25980", "e25980");
    ("e25920", "e25920");
    ("e25960", "e25960");
    ("e26110", "e26110");
    ("e26170", "e26170");
    ("e26190", "e26190");
    ("e26160", "e26160");
    ("e26180", "e26180");
    ("e26270", "e26270");
    ("e26100", "e26100");
    ("e26390", "e26390");
    ("e26400", "e26400");
    ("e27200", "e27200");
    ("e30400", "e30400");
    ("e30500", "e30500");
    ("e32800", "e32800");
    ("e33000", "e33000");
    ("e53240", "e53240");
    ("e53280", "e53280");
    ("e53410", "e53410");
    ("e53300", "e53300");
    ("e53317", "e53317");
    ("e53458", "e53458");
    ("e58950", "e58950");
    ("e58990", "e58990");
    ("p60100", "p60100");
    ("p61850", "p61850");
    ("e60000", "e60000");
    ("e62100", "e62100");
    ("e62900", "e62900");
    ("e62720", "e62720");
    ("e62730", "e62730");
    ("e62740", "e62740");
    ("p65300", "p65300");
    ("p65400", "p65400");
    ("e87482", "p87482");
    ("e87521", "p87521");
    ("e68000", "e68000");
    ("e82200", "e82200");
    ("t27800", "t27800");
    ("s27860", "s27860");
    ("p27895", "p27895");
    ("e87530", "e87530");
    ("e87550", "e87550");
    ("RECID", "recid");
    ("wage_head", "wage_head");
    ("wage_spouse", "wage_spouse");
    ("age", "age");
    ("s006", "s006");
    ("s008", "s008");
    ("s009", "s009");
    ("WSAMP", "wsamp");
    ("TXRT", "txrt")
  ].

(** list of zeroed-out "nonconst" variables *)
Definition ZEROED_NAMES : list string :=
  [
    "e35300_0"; "e35600_0"; "e35910_0"; "x03150"; "e03600";
    "e03280"; "e03900"; "e04000"; "e03700"; "c23250";
    "e23660"; "f2555"; "e02800"; "e02610"; "e02540";
    "e02615"; "SSIND"; "e18800"; "e18900";
    "e20950"; "e19500"; "e19570"; "e19400"; "c20400";
    "e20200"; "e20900"; "e21000"; "e21010"; "e02600";
    "_exact"; "e11055"; "e00250"; "e30100"; "e15360";
    "e04200"; "e37717"; "e04805"; "AGEP"; "AGES"; "PBI";
    "SBI"; "t04470"; "e58980"; "c00650"; "c00100";
    "c04470"; "c04600"; "c21060"; "c21040"; "c17000";
    "c18300"; "c20800"; "c02900"; "c02700"; "c23650";
    "c01000"; "c02500"; "e24583"; "_cmp";
    "e59440"; "e59470"; "e59400"; "e10105"; "e83200_0";
    "e59410"; "e59420"; "e74400"; "x62720"; "x60260";
    "x60240"; "x60220"; "x60130"; "x62730"; "e60290";
    "DOBYR"; "SDOBYR"; "DOBMD"; "SDOBMD"; "e62600";
    "x62740"; "_fixeic"; "e32880"; "e32890"; "CDOB1";
    "CDOB2"; "e32750"; "e32775"; "e33420"; "e33430";
    "e33450"; "e33460"; "e33465"; "e33470"; "x59560";
    "EICYB1"; "EICYB2"; "EICYB3"; "e83080"; "e25360";
    "e25430"; "e25400"; "e25500"; "e26210"; "e26340";
    "e26205"; "e26320"; "e87487"; "e87492";
    "e87497"; "e87526"; "e87522"; "e87524"; "e87528";
    "EDCRAGE"; "e07960"; "e07700"; "e07250"; "t07950";
    "e82882"; "e82880"; "e07500"; "e08001"; "e07970";
    "e07980"; "e10000"; "e10100"; "e10050"; "e10075";
    "e09805"; "e09710"; "e09720"; "e87900"; "e87905";
    "e87681"; "e87682"; "e11451"; "e11452"; "e11601";
    "e11602"; "e60300"; "e60860"; "e60840"; "e60630";
    "e60550"; "e60720"; "e60430"; "e60500"; "e60340";
    "e60680"; "e60600"; "e60405"; "e60440"; "e60420";
    "e60410"; "e61400"; "e60660"; "e60480"; "e62000";
    "e60250"; "e40223"; "_sep"; "_earned"; "_sey";
    "_setax"; "_feided"; "_ymod"; "_ymod1"; "_posagi";
    "xtxcr1xtxcr10"; "_xyztax"; "_avail";
    "_taxinc"; "c04800"; "_feitax"; "c05750"; "c24517";
    "_taxbc"; "c60000"; "_standard"; "c24516"; "c25420";
    "c05700"; "c32880"; "c32890"; "_dclim"; "c32800";
    "c33000"; "c05800"; "_othtax"; "c59560"; "_agep";
    "_ages"; "c87521"; "c87550"; "c07180";
    "c07230"; "_precrd"; "c07220"; "c59660"; "c07970";
    "c08795"; "c09200"; "c07100"; "_eitc"; "c59700";
    "c10950"; "_ymod2"; "_ymod3"; "c02650"; "_agierr";
    "_ywossbe"; "_ywossbc"; "_prexmp"; "c17750";
    "_statax"; "c37703"; "c20500"; "c20750"; "c19200";
    "c19700"; "_nonlimited"; "_limitratio"; "_phase2_i";
    "_fica"; "_seyoff"; "c11055"; "c15100"; "_numextra";
    "_txpyers"; "c15200"; "_othded"; "c04100"; "c04200";
    "c04500"; "_amtstd"; "_oldfei"; "c05200"; "_cglong";
    "_noncg"; "_hasgain"; "_dwks9"; "_dwks5"; "_dwks12";
    "_dwks16"; "_dwks17"; "_dwks21"; "_dwks25"; "_dwks26";
    "_dwks28"; "_dwks31"; "c24505"; "c24510"; "c24520";
    "c24530"; "c24540"; "c24534"; "c24597"; "c24598";
    "c24610"; "c24615"; "c24550"; "c24570"; "_addtax";
    "c24560"; "_taxspecial"; "c24580"; "c05100";
    "c59430"; "c59450"; "c59460"; "_line17"; "_line19";
    "_line22"; "_line30"; "_line31"; "_line32"; "_line36";
    "_line33"; "_line34"; "_line35"; "c59485"; "c59490";
    "_s1291"; "_parents"; "c62720"; "c60260"; "c63100";
    "c60200"; "c60240"; "c60220"; "c60130"; "c62730";
    "_addamt"; "c62100"; "_cmbtp"; "_edical"; "_amtsepadd";
    "c62600"; "c62700"; "_alminc"; "c62760";
    "_amtfei"; "c62780"; "c62900"; "c63000"; "c62740";
    "_ngamty"; "c62745"; "y62745"; "_tamt2"; "_amt5pc";
    "_amt15pc"; "_amt25pc"; "c62747"; "c62755"; "c62770";
    "_amt20pc"; "c62800"; "c09600"; "_ncu13";
    "_seywage"; "c33465"; "c33470"; "c33475"; "c33480";
    "c32840"; "_tratio"; "c33200"; "c33400";
    "_ieic"; "_modagi"; "e00200p"; "e00200s";
    "e00900p"; "e00900s"; "e02100p"; "e02100s";
    "_val_ymax"; "_preeitc"; "_val_rtbase"; "_val_rtless";
    "_dy"; "c11070"; "_nctcr"; "_ctcagi"; "c87482";
    "c87487"; "c87492"; "c87497"; "c87483"; "c87488";
    "c87493"; "c87498"; "c87540"; "c87530"; "c87654";
    "c87656"; "c87658"; "c87660"; "c87662"; "c87664";
    "c87666"; "c10960"; "c87668"; "c87681"; "c87560";
    "c87570"; "c87580"; "c87590"; "c87600"; "c87610";
    "c87620"; "_ctc1"; "_ctc2"; "_regcrd"; "_exocrd";
    "_ctctax"; "c82925"; "c82930"; "c82935";
    "c82880"; "h82880"; "c82885"; "c82890"; "c82900";
    "c82905"; "c82910"; "c82915"; "c82920"; "c82937";
    "c82940"; "e59660"; "_othadd"; "y07100";
    "x07100"; "c08800"; "e08795"; "x07400"; "c59680";
    "_othertax"; "e82915"; "e82940"; "SFOBYR"; "NIIT";
    "c59720"; "_comb"; "c07150"; "c10300"; "_iitax";
    "_refund"; "c11600"; "e11450"; "e82040"; "e11500";
    "_amed"; "_xlin3"; "_xlin6"; "_cmbtp_itemizer";
    "_cmbtp_standard"; "_expanded_income"; "c07300";
    "c07600"; "c07240"; "c62100_everyone";
    "_surtax"; "_combined"; "x04500"
  ].

Definition set_dim (self : Records) (n : nat) : Records :=
  mkRecords n (_current_year self) (store self) (BF self) (WT self).

(** [for attrname, varname in Records.NAMES:
       setattr(self, attrname, tax_dta[varname].values)]. *)
Fixpoint read_names (tax_dta : Frame) (names : list (string * string))
  : M unit :=
  match names with
  | [] => ret tt
  | (attrname, varname) :: rest =>
      a <- lift (column tax_dta varname) ;;
      modify (fun self => setattr_array self attrname a) ;;
      read_names tax_dta rest
  end.

(** [for name in Records.ZEROED_NAMES:
       setattr(self, name, np.zeros((self.dim,)))]. *)
Fixpoint zero_names (names : list string) : M unit :=
  match names with
  | [] => ret tt
  | name :: rest =>
      modify (fun self => setattr self name (repeat 0 (dim self))) ;;
      zero_names rest
  end.

(** [_read_data].  Both branches of [data.endswith("gz")] read the file at
    the path.  The seven assignments [self.e22250 = self.p22250], ... bind
    second names to arrays that exist by then: [alias] resolves them. *)
Definition _read_data (w : World Frame) (data : arg Frame) : M unit :=
  tax_dta <- lift (match data with
                   | DataFrame df => Ok df
                   | Str s => read_csv Frame w (Path Frame s)
                   | Other => Raise ValueError
                   end) ;;
  (* remove the aggregated record from 2009 PUF *)
  let tax_dta := drop_aggregate tax_dta in
  modify (fun self => set_dim self (List.length (rows tax_dta))) ;;
  (* create variables in NAMES list *)
  read_names tax_dta NAMES ;;
  zero_names ZEROED_NAMES ;;
  modify (fun self => setattr self "_num" (repeat 1 (dim self))) ;;
  (* specify SOIYR *)
  modify (fun self =>
    setattr_array self "SOIYR" (Int64 (repeat PUF_YEAR (dim self)))).

(** The [start_year] argument: [None], an integer, or anything else. *)
Inductive year_arg : Type :=
| NoYear
| Year (y : Z)
| NotAYear.

(** [Records.__init__].  [FLPDYR] holds whole years; the year of the first
    unit becomes the integer [_current_year]. *)
Definition __init__ (wd : World Frame) (wb : World table) (ww : World wtable)
    (data : arg Frame) (blowup_factors : arg table) (weights : arg wtable)
    (start_year : year_arg) : M unit :=
  _read_data wd data ;;
  _read_blowup wb blowup_factors ;;
  _read_weights ww weights ;;
  match start_year with
  | NoYear =>
      self <- get_self ;;
      y <- lift (take (getattr self "FLPDYR") 0) ;;
      modify (fun self => set_current_year self (Qfloor y))
  | Year y => modify (fun self => set_current_year self y)
  | NotAYear => lift (Raise ValueError)
  end ;;
  self <- get_self ;;
  if (_current_year self =? PUF_YEAR)%Z then _impute_variables else ret tt.

(** An object before [__init__] has run: no attribute is set. *)
Definition blank : Records := mkRecords 0 0 (fun _ => Float64 []) [] [].

(** [Records(data, blowup_factors, weights, start_year)]: the object when
    [__init__] returns, the exception when it raises. *)
Definition construct (wd : World Frame) (wb : World table) (ww : World wtable)
    (data : arg Frame) (blowup_factors : arg table) (weights : arg wtable)
    (start_year : year_arg) : outcome Records :=
  match __init__ wd wb ww data blowup_factors weights start_year blank with
  | (self, Ok _) => Ok self
  | (_, Raise e) => Raise e
  | (_, Nan) => Nan
  end.

(** ** Reading of the two loops

    Not in the source: a list of assignments carried out in order, to which
    the loops of [_read_data] are proved equal. *)
Definition assign_all (l : list (string * ndarray)) (self : Records)
  : Records :=
  fold_left (fun s nv => setattr_array s (fst nv) (snd nv)) l self.

(** Every name [_read_data] assigns, in order. *)
Definition declared_names : list string :=
  map fst NAMES ++ ZEROED_NAMES ++ ["_num"; "SOIYR"].

(** The values the two loops assign. *)
Definition read_values (df : Frame) (names : list (string * string))
  : list (string * ndarray) :=
  map (fun av => (fst av, column_values df (snd av))) names.

Definition zero_values (n : nat) (names : list string)
  : list (string * ndarray) :=
  map (fun name => (name, Float64 (repeat 0 n))) names.

(** Everything [_read_data] assigns for a frame with [kept] rows left. *)
Definition read_assignments (kept : Frame) : list (string * ndarray) :=
  read_values kept NAMES
  ++ zero_values (List.length (rows kept)) ZEROED_NAMES
  ++ [ ("_num", Float64 (repeat 1 (List.length (rows kept))));
       ("SOIYR", Int64 (repeat PUF_YEAR (List.length (rows kept)))) ].

(** The [if]/[elif]/[else] on [start_year] of the constructor, by itself. *)
Definition settle_year (start_year : year_arg) : M unit :=
  match start_year with
  | NoYear =>
      self <- get_self ;;
      y <- lift (take (getattr self "FLPDYR") 0) ;;
      modify (fun self => set_current_year self (Qfloor y))
  | Year y => modify (fun self => set_current_year self y)
  | NotAYear => lift (Raise ValueError)
  end.

(* ================================================================== *)
(** * Further sample data *)

Module Cases.

(** The sample units with a weight table that stops at 2009. *)
Definition no_weights : Records :=
  mkRecords 2 2009 (fun name => Float64 (Sample.columns name)) Sample.bf
    [("WT2009", [100; 200])].

(** Normalised factors for 2011. *)
Definition factors_2011 : row :=
  fun s => match s with
           | AWAGE => 1.02 | ACGNS => 0.5
           | _ => 1
           end.

(** The sample units with factors and weights for two more years. *)
Definition two_years : Records :=
  mkRecords 2 2009 (fun name => Float64 (Sample.columns name))
    [(2009%Z, None); (2010%Z, Some Sample.factors_2010);
     (2011%Z, Some factors_2011)]
    [("WT2010", [150; 250]); ("WT2011", [175; 275])].

(** A third year for the raw sample. *)
Definition raw_2011 : row :=
  fun s => match s with
           | APOPN => 121 | APOPSNR => 66 | AWAGE => 242 | ASOCSEC => 33
           | _ => 121
           end.

Definition raw3 : table :=
  [(2009%Z, Sample.raw_2009); (2010%Z, Sample.raw_2010); (2011%Z, raw_2011)].

(** Files for the loaders: the weights are on disk, the factors only in the
    distribution. *)
Definition weights_on_disk : World wtable :=
  mkWorld (fun p => if String.eqb p "my_weights.csv" then Some Sample.wt
                    else None)
          (fun p => if String.eqb p "taxcalc/WEIGHTS.csv" then Some []
                    else None).

Definition factors_in_egg : World table :=
  mkWorld (fun _ => None)
          (fun p => if String.eqb p "taxcalc/StageIFactors.csv"
                    then Some Sample.raw else None).

(** The sample units with a filing status that is no index of
    [std_2009]. *)
Definition bad_status : Records :=
  mkRecords 2 2009
    (fun name => Float64 (if String.eqb name "MARS" then [2; 9]
                          else Sample.columns name))
    Sample.bf Sample.wt.

(** Input rows: a joint return, a single return and the aggregate
    record. *)
Definition joint_row : string -> Q :=
  fun c => if String.eqb c "recid" then 1
           else if String.eqb c "flpdyr" then 2009
           else if String.eqb c "mars" then 2
           else if String.eqb c "wage_head" then 600
           else if String.eqb c "wage_spouse" then 400
           else if String.eqb c "e00200" then 1000
           else 0.

Definition single_row : string -> Q :=
  fun c => if String.eqb c "recid" then 2
           else if String.eqb c "flpdyr" then 2009
           else if String.eqb c "mars" then 1
           else if String.eqb c "wage_head" then 300
           else if String.eqb c "e00200" then 300
           else 0.

Definition aggregate_row : string -> Q :=
  fun c => if String.eqb c "recid" then 999999
           else if String.eqb c "mars" then 1
           else 7.

(** A frame with every column of [NAMES]. *)
Definition frame : Frame :=
  float_frame (map snd NAMES) [joint_row; aggregate_row; single_row].

(** A frame that holds the aggregate record only. *)
Definition only_aggregate : Frame :=
  float_frame (map snd NAMES) [aggregate_row].

(** A frame with the identifiers only. *)
Definition bare : Frame := float_frame ["recid"] [joint_row].

(** One filing unit whose input columns hold whole numbers and were read as
    [int64] columns. *)
Definition whole_numbers : Records :=
  mkRecords 1 2009
    (fun name => Int64 (if String.eqb name "FLPDYR" then [2009]
                        else if String.eqb name "e00200" then [315]
                        else if String.eqb name "e00900" then [-5]
                        else if String.eqb name "e01000" then [11]
                        else if String.eqb name "p22250" then [7]
                        else [0])%Z)
    [(2009%Z, None); (2010%Z, Some Sample.factors_2010);
     (2011%Z, Some factors_2011)]
    [("WT2010", [150]); ("WT2011", [175])].

(** A frame of one unit whose cells are integers, except an interest amount
    of 1000.5 in [e00300]. *)
Definition whole_frame : Frame :=
  mkFrame (map snd NAMES) (fun _ => false)
    [ fun c => if String.eqb c "recid" then Int 1
               else if String.eqb c "flpdyr" then Int 2013
               else if String.eqb c "mars" then Int 1
               else if String.eqb c "e00200" then Int 315
               else if String.eqb c "e00300" then Float 1000.5
               else Int 0 ].

(** A data file that only the distribution holds. *)
Definition data_in_egg : World Frame :=
  mkWorld (fun _ => None) (fun _ => Some frame).

End Cases.

(* ================================================================== *)
(** * Properties of the factor normalisation *)

Open Scope list_scope.

Section Normalisation.

Lemma divide_column_rows :
  forall s p t,
    divide_column s p t =
    map (fun yr => (fst yr, set_col (snd yr) s (snd yr s / snd yr p))) t.
Proof. reflexivity. Qed.

Lemma divide_columns_rows :
  forall t,
    divide_columns t = map (fun yr => (fst yr, per_capita_row (snd yr))) t.
Proof.
  intro t. unfold divide_columns, per_capita_row.
  generalize per_capita as l. intro l. revert t.
  induction l as [|[s p] l IH]; intro t; simpl.
  - rewrite <- (map_id t) at 1. apply map_ext. intros [y r]. reflexivity.
  - rewrite IH. unfold divide_column. rewrite map_map. apply map_ext.
    intros [y r]. reflexivity.
Qed.

Lemma per_capita_row_spec :
  forall r s,
    per_capita_row r s =
    match divisor s with
    | Some p => r s / r p
    | None => r s
    end.
Proof. intros r s. destruct s; reflexivity. Qed.

Lemma one_plus_pct_change_from :
  forall t prev,
    one_plus (pct_change_rows t (shift_from prev t)) = growth_from prev t.
Proof.
  induction t as [|[y r] t IH]; intro prev; simpl.
  - reflexivity.
  - rewrite IH. destruct prev; reflexivity.
Qed.

Lemma normalize_growth :
  forall t, normalize t = growth_from None (divide_columns t).
Proof. intro t. apply one_plus_pct_change_from. Qed.

(** The entry of a row that directly follows another one. *)
Lemma growth_adjacent :
  forall (pre post : table) (y0 year : Z) (a b : row) prev,
    ~ In year (map fst pre) ->
    y0 <> year ->
    loc (growth_from prev (pre ++ (y0, a) :: (year, b) :: post)) year =
    Some (Some (fun s => 1 + (b s / a s - 1))).
Proof.
  induction pre as [|[y r] pre IH]; intros post y0 year a b prev Hpre Hne.
  - simpl. destruct (Z.eqb_spec y0 year) as [E|_]; [contradiction|].
    rewrite Z.eqb_refl. reflexivity.
  - simpl. destruct (Z.eqb_spec y year) as [E|_].
    + exfalso. apply Hpre. left. exact E.
    + apply IH; [|exact Hne]. intro H. apply Hpre. right. exact H.
Qed.

Lemma normalize_adjacent :
  forall (pre post : table) (year : Z) (prev cur : row),
    ~ In year (map fst pre) ->
    loc (normalize (pre ++ (year - 1, prev) :: (year, cur) :: post)%Z) year =
    Some (Some (fun s =>
                  1 + (per_capita_row cur s / per_capita_row prev s - 1))).
Proof.
  intros pre post year prev cur Hpre.
  rewrite normalize_growth, divide_columns_rows, map_app. simpl map.
  apply growth_adjacent.
  - rewrite map_map. simpl. exact Hpre.
  - lia.
Qed.

End Normalisation.

Lemma loc_map :
  forall A B (f : A -> B) (t : list (Z * A)) year,
    loc (map (fun yr => (fst yr, f (snd yr))) t) year
    = option_map f (loc t year).
Proof.
  induction t as [|[y a] t IH]; intro year; simpl.
  - reflexivity.
  - destruct (y =? year)%Z; [reflexivity | apply IH].
Qed.

Lemma loc_second :
  forall A (pre post : list (Z * A)) (y0 year : Z) (a b : A),
    ~ In year (map fst pre) ->
    y0 <> year ->
    loc (pre ++ (y0, a) :: (year, b) :: post) year = Some b.
Proof.
  induction pre as [|[y r] pre IH]; intros post y0 year a b Hpre Hne; simpl.
  - destruct (Z.eqb_spec y0 year) as [E|_]; [contradiction|].
    rewrite Z.eqb_refl. reflexivity.
  - destruct (Z.eqb_spec y year) as [E|_].
    + exfalso. apply Hpre. left. exact E.
    + apply IH; [|exact Hne]. intro H. apply Hpre. right. exact H.
Qed.

(** The first row of a normalised table is the NaN row. *)
Lemma normalize_first_row :
  forall year r t, loc (normalize ((year, r) :: t)) year = Some None.
Proof.
  intros year r t. rewrite normalize_growth, divide_columns_rows. simpl.
  rewrite Z.eqb_refl. reflexivity.
Qed.

(** C4.  In a raw factor table where the row of [year] directly follows the
    row of [year - 1], normalisation by [_read_blowup] leaves, in each of
    the thirteen columns it divides by a population column ([AGDPN],
    [ATXPY], [AWAGE], [ASCHCI], [ASCHCL], [ASCHF], [AINTS], [ADIVS],
    [ASCHEI], [ASCHEL], [ACGNS] and [ABOOK] by [APOPN], [ASOCSEC] by
    [APOPSNR]), one plus the percent change of the per-capita level, which
    is the ratio [(raw[year]/pop[year]) / (raw[year-1]/pop[year-1])]. *)
Theorem normalize_per_capita_growth :
  forall (pre post : table) (year : Z) (prev cur : row) (s pop : series),
    ~ In year (map fst pre) ->
    In (s, pop)
       [ (AGDPN, APOPN); (ATXPY, APOPN); (AWAGE, APOPN); (ASCHCI, APOPN);
         (ASCHCL, APOPN); (ASCHF, APOPN); (AINTS, APOPN); (ADIVS, APOPN);
         (ASCHEI, APOPN); (ASCHEL, APOPN); (ACGNS, APOPN); (ABOOK, APOPN);
         (ASOCSEC, APOPSNR) ] ->
    exists r,
      loc (normalize (pre ++ (year - 1, prev) :: (year, cur) :: post)%Z) year
        = Some (Some r) /\
      r s == 1 + ((cur s / cur pop) / (prev s / prev pop) - 1) /\
      r s == (cur s / cur pop) / (prev s / prev pop).
Proof.
  intros pre post year prev cur s pop Hpre Hin.
  assert (Hdiv : divisor s = Some pop).
  { simpl in Hin.
    repeat (destruct Hin as [E|Hin]; [inversion E; subst; reflexivity|]).
    contradiction. }
  eexists. split; [apply normalize_adjacent; exact Hpre|].
  cbv beta. rewrite !per_capita_row_spec, Hdiv.
  split.
  - unfold Qdiv. ring.
  - ring.
Qed.

Lemma normalize_per_capita_growth_witness :
  ~ In 2010%Z (map fst (@nil (Z * row))) /\
  (exists r,
     loc (normalize ([] ++ (2010 - 1, Sample.raw_2009)
                        :: (2010, Sample.raw_2010) :: [])%Z) 2010
       = Some (Some r) /\
     r AWAGE == (231 / 110) / (200 / 100)) /\
  (exists r,
     loc (normalize ([] ++ (2010 - 1, Sample.raw_2009)
                        :: (2010, Sample.raw_2010) :: [])%Z) 2010
       = Some (Some r) /\
     r ASOCSEC == (15 / 60) / (10 / 50) /\
     r ASOCSEC == 1.25).
Proof.
  split; [intros []|]. split.
  - destruct (normalize_per_capita_growth [] [] 2010 Sample.raw_2009
                Sample.raw_2010 AWAGE APOPN) as (r & Hloc & _ & Hr).
    + intros [].
    + right. right. left. reflexivity.
    + exists r. split; [exact Hloc | exact Hr].
  - destruct (normalize_per_capita_growth [] [] 2010 Sample.raw_2009
                Sample.raw_2010 ASOCSEC APOPSNR) as (r & Hloc & _ & Hr).
    + intros [].
    + do 12 right. left. reflexivity.
    + exists r. split; [exact Hloc|]. split; [exact Hr|].
      rewrite Hr. reflexivity.
Defined.

(** C5, as stated, fails: in the two-year sample every population and
    price-index entry of the 2010 row differs from the published one. *)
Lemma published_series_not_kept :
  loc Sample.raw 2010 = Some Sample.raw_2010 /\
  exists r,
    loc (normalize Sample.raw) 2010 = Some (Some r) /\
    forall s, In s [APOPN; ACPIU; APOPDEP; APOPSNR; ACPIM] ->
              ~ r s == Sample.raw_2010 s.
Proof.
  split; [reflexivity|].
  exists (fun s => 1 + (per_capita_row Sample.raw_2010 s
                        / per_capita_row Sample.raw_2009 s - 1)).
  split.
  - apply (normalize_adjacent [] [] 2010 Sample.raw_2009 Sample.raw_2010).
    intros [].
  - intros s Hs. simpl in Hs.
    destruct Hs as [<-|[<-|[<-|[<-|[<-|[]]]]]];
      vm_compute; intro H; discriminate H.
Qed.

(** C5, amended.  The population and price-index series ([APOPN], [ACPIU],
    [APOPDEP], [APOPSNR], [ACPIM], and [ARETS], [AUCOMP], [AIPD]) are not
    divided by any population series: the per-capita step leaves them as
    published.  The percent-change step then replaces them like every other
    column: at a row that directly follows the row of the year before, the
    entry is the ratio [raw[year] / raw[year-1]] of the published values. *)
Theorem normalize_undivided_series :
  forall (pre post : table) (year : Z) (prev cur : row) (s : series),
    ~ In year (map fst pre) ->
    In s [APOPN; ACPIU; APOPDEP; APOPSNR; ACPIM; ARETS; AUCOMP; AIPD] ->
    let raw := (pre ++ (year - 1, prev) :: (year, cur) :: post)%Z in
    divisor s = None /\
    (exists r1, loc (divide_columns raw) year = Some r1 /\ r1 s = cur s) /\
    (exists r, loc (normalize raw) year = Some (Some r) /\
               r s == cur s / prev s).
Proof.
  intros pre post year prev cur s Hpre Hs raw.
  assert (Hdiv : divisor s = None).
  { simpl in Hs.
    destruct Hs as [<-|[<-|[<-|[<-|[<-|[<-|[<-|[<-|[]]]]]]]]]; reflexivity. }
  split; [exact Hdiv|]. split.
  - exists (per_capita_row cur). split.
    + unfold raw. rewrite divide_columns_rows, loc_map.
      rewrite loc_second; [reflexivity | exact Hpre | lia].
    + rewrite per_capita_row_spec, Hdiv. reflexivity.
  - eexists. split; [apply normalize_adjacent; exact Hpre|].
    cbv beta. rewrite !per_capita_row_spec, Hdiv. ring.
Qed.

Lemma normalize_undivided_series_witness :
  ~ In 2010%Z (map fst (@nil (Z * row))) /\
  In APOPN [APOPN; ACPIU; APOPDEP; APOPSNR; ACPIM; ARETS; AUCOMP; AIPD] /\
  exists r,
    loc (normalize ([] ++ (2010 - 1, Sample.raw_2009)
                       :: (2010, Sample.raw_2010) :: [])%Z) 2010
      = Some (Some r) /\
    r APOPN == 110 / 100.
Proof.
  split; [intros []|]. split; [left; reflexivity|].
  destruct (normalize_undivided_series [] [] 2010 Sample.raw_2009
              Sample.raw_2010 APOPN) as (_ & _ & r & Hloc & Hr).
  - intros [].
  - left. reflexivity.
  - exists r. split; [exact Hloc | exact Hr].
Defined.

(* ================================================================== *)
(** * Properties of the extrapolation *)

(** ** Arrays and what is written back into them *)

Lemma truncate_whole : forall z : Z, truncate (inject_Z z) = z.
Proof. intro z. unfold truncate. simpl. apply Z.quot_1_r. Qed.

(** A whole number goes into an array of either dtype as it is. *)
Lemma stored_whole :
  forall a x, Qden x = 1%positive -> stored a x = x.
Proof.
  intros [l|l] [n d] H; simpl in *; [|reflexivity].
  subst d. unfold truncate. simpl. rewrite Z.quot_1_r. reflexivity.
Qed.

Lemma values_write_back :
  forall f a,
    values (write_back f a) = map (fun x => stored a (f x)) (values a).
Proof. intros f [l|l]; simpl; [rewrite !map_map|]; reflexivity. Qed.

(** An operation that takes whole numbers to whole numbers loses nothing
    in an array of either dtype. *)
Lemma values_write_back_whole :
  forall f a,
    (forall z, Qden (f (inject_Z z)) = 1%positive) ->
    values (write_back f a) = map f (values a).
Proof.
  intros f a H. rewrite values_write_back.
  destruct a as [l|l]; [|reflexivity].
  simpl values. rewrite !map_map. apply map_ext. intro z.
  apply stored_whole. apply H.
Qed.

Lemma store_in_place :
  forall self name f n,
    store (in_place self name f) n =
    if String.eqb n (alias name) then write_back f (getarray self name)
    else store self n.
Proof. reflexivity. Qed.

Lemma arrays_in_place :
  forall self name f n,
    arrays (in_place self name f) n =
    if String.eqb n (alias name)
    then map (fun x => stored_in self name (f x)) (getattr self name)
    else arrays self n.
Proof.
  intros self name f n. unfold arrays. rewrite store_in_place.
  destruct (String.eqb n (alias name)); [apply values_write_back|].
  reflexivity.
Qed.

(** What an array holds once an operation has gone back into it. *)
Lemma written_entries :
  forall self self' n f,
    store self' n = write_back f (store self n) ->
    arrays self' n = map (fun x => stored (store self n) (f x)) (arrays self n).
Proof.
  intros self self' n f H. unfold arrays. rewrite H.
  apply values_write_back.
Qed.

Lemma setattr_frame :
  forall self name v,
    dim (setattr self name v) = dim self /\
    _current_year (setattr self name v) = _current_year self /\
    BF (setattr self name v) = BF self /\
    WT (setattr self name v) = WT self.
Proof. intros. repeat split. Qed.

Lemma arrays_setattr_array :
  forall self name a n,
    arrays (setattr_array self name a) n =
    if String.eqb n (alias name) then values a else arrays self n.
Proof.
  intros self name a n. unfold arrays, setattr_array. simpl.
  destruct (String.eqb n (alias name)); reflexivity.
Qed.

Lemma arrays_setattr :
  forall self name v n,
    arrays (setattr self name v) n =
    if String.eqb n (alias name) then v else arrays self n.
Proof. intros. apply arrays_setattr_array. Qed.

Lemma store_setattr :
  forall self name v n,
    store (setattr self name v) n =
    if String.eqb n (alias name) then Float64 v else store self n.
Proof. reflexivity. Qed.

(** [FLPDYR += 1] in an array of either dtype. *)
Lemma advance_FLPDYR :
  forall self,
    getattr (in_place self "FLPDYR" (fun y => y + 1)) "FLPDYR"
    = map (fun y => y + 1) (getattr self "FLPDYR").
Proof.
  intro self. unfold getattr, arrays.
  change (store (in_place self "FLPDYR" (fun y => y + 1)) (alias "FLPDYR"))
    with (write_back (fun y => y + 1) (store self (alias "FLPDYR"))).
  apply values_write_back_whole. intro z. reflexivity.
Qed.

Lemma stmt_mem_In :
  forall (st : stmt) (body : list stmt),
    existsb (stmt_eqb st) body = true -> In st body.
Proof.
  intros st body H. apply existsb_exists in H. destruct H as (x & Hx & E).
  assert (x = st); [|subst x; exact Hx].
  destruct st, x; simpl in E; try discriminate E;
    repeat match goal with
           | H : _ && _ = true |- _ => apply andb_true_iff in H; destruct H
           | H : String.eqb _ _ = true |- _ => apply String.eqb_eq in H
           | H : series_eqb _ _ = true |- _ =>
               unfold series_eqb in H;
               match type of H with
               | (if ?d then _ else _) = _ => destruct d; [|discriminate H]
               end; clear H
           end; subst; reflexivity.
Qed.

Ltac in_body := apply stmt_mem_In; vm_compute; reflexivity.

Section Blowup.

Variable year : Z.
Variable r : row.

Lemma exec_step :
  forall st self,
    loc (BF self) year = Some (Some r) ->
    exec year st self = (step r self st, Ok tt).
Proof.
  intros st self Hrow.
  destruct st; unfold exec, bind, get_self, lift, modify, Factors.getitem;
    rewrite ?Hrow; reflexivity.
Qed.

Lemma exec_all_steps :
  forall body self,
    loc (BF self) year = Some (Some r) ->
    exec_all year body self = (fold_left (step r) body self, Ok tt).
Proof.
  induction body as [|st body IH]; intros self Hrow; simpl.
  - reflexivity.
  - unfold bind. rewrite exec_step by exact Hrow. apply IH. exact Hrow.
Qed.

(** Without a row for the year the first statement that reads a factor
    raises; nothing has been written before it. *)
Lemma exec_KeyError :
  forall st self,
    loc (BF self) year = None ->
    match st with TimesEqualOne _ => False | _ => True end ->
    exec year st self = (self, Raise KeyError).
Proof.
  intros st self Hrow Hst.
  destruct st; try contradiction;
    unfold exec, bind, get_self, lift, modify, Factors.getitem;
    rewrite Hrow; reflexivity.
Qed.

Lemma steps_frame :
  forall body self,
    let self' := fold_left (step r) body self in
    dim self' = dim self /\ _current_year self' = _current_year self /\
    BF self' = BF self /\ WT self' = WT self.
Proof.
  induction body as [|st body IH]; intro self; simpl.
  - repeat split.
  - destruct (IH (step r self st)) as (H1 & H2 & H3 & H4).
    rewrite H1, H2, H3, H4. repeat split.
Qed.

Lemma existsb_eqb_false :
  forall (n : string) l,
    existsb (String.eqb n) l = false ->
    forall m, In m l -> String.eqb m n = false.
Proof.
  induction l as [|x l IH]; intros H m Hm; simpl in *.
  - contradiction.
  - apply orb_false_iff in H. destruct H as [Hx Hl].
    destruct Hm as [<-|Hm]; [|apply IH; assumption].
    rewrite String.eqb_sym. exact Hx.
Qed.

Lemma step_store :
  forall self st n,
    store (step r self st) n =
    if String.eqb n (written st)
    then write_back (scale r st) (store self (written st))
    else store self n.
Proof. reflexivity. Qed.

Lemma steps_untouched :
  forall body self n,
    (forall st, In st body -> String.eqb n (written st) = false) ->
    store (fold_left (step r) body self) n = store self n.
Proof.
  induction body as [|st body IH]; intros self n Hn; simpl.
  - reflexivity.
  - rewrite IH by (intros st' H'; apply Hn; right; exact H').
    rewrite step_store, (Hn st) by (left; reflexivity). reflexivity.
Qed.

(** Every statement writes an array of its own, so the array of a
    statement ends as that statement alone makes it. *)
Lemma steps_written :
  forall body self st,
    distinct (map written body) = true ->
    In st body ->
    store (fold_left (step r) body self) (written st) =
    write_back (scale r st) (store self (written st)).
Proof.
  induction body as [|st0 body IH]; intros self st Hd Hin; simpl in *.
  - contradiction.
  - apply andb_true_iff in Hd. destruct Hd as [Hfresh Hd].
    apply negb_true_iff in Hfresh.
    destruct Hin as [->|Hin].
    + rewrite steps_untouched.
      * rewrite step_store, String.eqb_refl. reflexivity.
      * intros st' H'. rewrite String.eqb_sym.
        apply (existsb_eqb_false _ _ Hfresh). apply in_map. exact H'.
    + rewrite IH by assumption.
      rewrite step_store.
      rewrite (existsb_eqb_false _ _ Hfresh (written st))
        by (apply in_map; exact Hin).
      reflexivity.
Qed.

End Blowup.

Lemma blowup_body_distinct : distinct (map written blowup_body) = true.
Proof. vm_compute. reflexivity. Qed.

Lemma blowup_body_keeps_FLPDYR :
  forall st, In st blowup_body -> String.eqb "FLPDYR" (written st) = false.
Proof.
  assert (H : forallb (fun st => negb (String.eqb "FLPDYR" (written st)))
                      blowup_body = true) by (vm_compute; reflexivity).
  intros st Hin. rewrite forallb_forall in H.
  apply negb_true_iff. apply H. exact Hin.
Qed.

(** The state after [FLPDYR += 1]. *)
Lemma year_advanced :
  forall self,
    let self2 := in_place (set_current_year self (_current_year self + 1))
                          "FLPDYR" (fun y => y + 1) in
    dim self2 = dim self /\
    _current_year self2 = (_current_year self + 1)%Z /\
    BF self2 = BF self /\ WT self2 = WT self /\
    getattr self2 "FLPDYR" = map (fun y => y + 1) (getattr self "FLPDYR") /\
    forall n, String.eqb n "FLPDYR" = false -> store self2 n = store self n.
Proof.
  intro self. cbv zeta. repeat split.
  - apply (advance_FLPDYR (set_current_year self (_current_year self + 1))).
  - intros n Hn. rewrite store_in_place.
    change (alias "FLPDYR") with "FLPDYR"%string. rewrite Hn. reflexivity.
Qed.

(** One year-advance when the factor row and the weight column of the new
    year are there. *)
Lemma increment_year_runs :
  forall self r wt,
    loc (BF self) (_current_year self + 1) = Some (Some r) ->
    Weights.getitem (WT self) ("WT" ++ str (_current_year self + 1))%string
      = Ok wt ->
    exists self',
      increment_year self = (self', Ok tt) /\
      _current_year self' = (_current_year self + 1)%Z /\
      dim self' = dim self /\ BF self' = BF self /\ WT self' = WT self /\
      getattr self' "s006" = map (fun w => w / 100) wt /\
      getattr self' "FLPDYR" = map (fun y => y + 1) (getattr self "FLPDYR") /\
      (forall st, In st blowup_body -> written st <> "s006"%string ->
         store self' (written st)
         = write_back (scale r st) (store self (written st))).
Proof.
  intros self r wt Hrow Hwt.
  destruct (year_advanced self) as (D2 & Y2 & B2 & W2 & F2 & S2).
  remember (in_place (set_current_year self (_current_year self + 1))
                     "FLPDYR" (fun y => y + 1)) as self2 eqn:E2.
  destruct (steps_frame r blowup_body self2) as (D3 & Y3 & B3 & W3).
  remember (fold_left (step r) blowup_body self2) as self3 eqn:E3.
  exists (setattr self3 "s006" (map (fun w => w / 100) wt)).
  destruct (setattr_frame self3 "s006" (map (fun w => w / 100) wt))
    as (D4 & Y4 & B4 & W4).
  split.
  - unfold increment_year, bind, modify, get_self, lift.
    rewrite <- E2. unfold _blowup.
    rewrite (exec_all_steps _ r)
      by (rewrite Y2, B2; exact Hrow).
    rewrite <- E3. unfold current_year. rewrite Y3, W3, Y2, W2, Hwt.
    reflexivity.
  - rewrite Y4, D4, B4, W4, Y3, D3, B3, W3, Y2, D2, B2, W2.
    repeat split.
    + unfold getattr. rewrite arrays_setattr. simpl.
      unfold arrays. rewrite E3.
      rewrite steps_untouched by apply blowup_body_keeps_FLPDYR.
      exact F2.
    + intros st Hin Hne.
      change (store (setattr self3 "s006" (map (fun w => w / 100) wt))
                    (written st))
        with (if String.eqb (written st) "s006"
              then Float64 (map (fun w => w / 100) wt)
              else store self3 (written st)).
      destruct (String.eqb_spec (written st) "s006") as [E|_];
        [contradiction|].
      rewrite E3.
      rewrite steps_written by (apply blowup_body_distinct || exact Hin).
      rewrite S2; [reflexivity|].
      rewrite String.eqb_sym. apply blowup_body_keeps_FLPDYR. exact Hin.
Qed.

(** The entries an [_blowup] statement leaves, by the dtype of its
    array. *)
Lemma scaled_entries :
  forall self self' f g,
    store self' (alias f) = write_back g (store self (alias f)) ->
    getattr self' f = map (fun x => stored_in self f (g x)) (getattr self f) /\
    (forall l, getarray self f = Float64 l -> getattr self' f = map g l) /\
    (forall l, getarray self f = Int64 l ->
       getattr self' f = map (fun z => inject_Z (truncate (g (inject_Z z)))) l).
Proof.
  intros self self' f g H. unfold getattr, arrays, stored_in, getarray.
  rewrite H. split; [apply values_write_back|].
  split; intros l ->; simpl; [reflexivity | apply map_map].
Qed.

Lemma blowup_body_head :
  blowup_body = TimesEqualBF "e00200" AWAGE :: tl blowup_body.
Proof. reflexivity. Qed.

Lemma factor_statements_keep_s006 :
  forall f s, In (TimesEqualBF f s) blowup_body -> alias f <> "s006"%string.
Proof.
  assert (H : forallb (fun st => match st with
                                 | TimesEqualOne _ => true
                                 | _ => negb (String.eqb (written st) "s006")
                                 end) blowup_body = true)
    by (vm_compute; reflexivity).
  intros f s Hin E. rewrite forallb_forall in H.
  specialize (H _ Hin). simpl in H. unfold written in H. simpl in H.
  rewrite E in H. discriminate H.
Qed.

Lemma Forall2_map_same :
  forall A B (P : A -> B -> Prop) (f : A -> B) (l : list A),
    (forall x, P x (f x)) -> Forall2 P l (map f l).
Proof.
  intros A B P f l H. induction l as [|x l IH]; simpl; constructor; auto.
Qed.

Lemma Forall2_map_both :
  forall A B C (P : B -> C -> Prop) (f : A -> B) (g : A -> C) (l : list A),
    (forall x, P (f x) (g x)) -> Forall2 P (map f l) (map g l).
Proof.
  intros A B C P f g l H. induction l as [|x l IH]; simpl; constructor; auto.
Qed.

(** C1, as stated, fails: a wage of 315 whole dollars in a column read as
    [int64], with [AWAGE] 1.05 for 2010, becomes 330 and not the product
    330.75, because the product goes back into the integer array. *)
Lemma whole_wages_lose_fraction :
  _current_year Cases.whole_numbers = 2009%Z /\
  loc (BF Cases.whole_numbers) 2010 = Some (Some Sample.factors_2010) /\
  Weights.getitem (WT Cases.whole_numbers) "WT2010" = Ok [150] /\
  getattr Cases.whole_numbers "e00200" = [315] /\
  Sample.factors_2010 AWAGE = 1.05 /\
  exists self',
    increment_year Cases.whole_numbers = (self', Ok tt) /\
    getattr self' "e00200" = [330] /\
    ~ Forall2 Qeq (getattr self' "e00200") (map (fun x => x * 1.05) [315]).
Proof.
  repeat (split; [reflexivity|]).
  destruct (increment_year_runs Cases.whole_numbers Sample.factors_2010 [150])
    as (self' & Hrun & _ & _ & _ & _ & _ & _ & Hbody); try reflexivity.
  exists self'. split; [exact Hrun|].
  assert (E : getattr self' "e00200" = [330]).
  { destruct (scaled_entries Cases.whole_numbers self' "e00200"
                (fun x => x * Sample.factors_2010 AWAGE)) as (_ & _ & Hint).
    - apply (Hbody (TimesEqualBF "e00200" AWAGE)); [in_body|].
      vm_compute. discriminate.
    - rewrite (Hint [315%Z]) by reflexivity. reflexivity. }
  split; [exact E|]. rewrite E. intro H.
  inversion H as [|? ? ? ? H1 _]. vm_compute in H1. discriminate H1.
Qed.

(** C1, amended.  From [current_year = 2009], with a row of factors for 2010
    and a weight column [WT2010], one [increment_year] returns normally,
    sets [current_year] to 2010, adds 1 to every entry of [FLPDYR], and
    overwrites [s006] with the column [WT2010] divided by 100, that is
    scaled by 0.01.  Every column of a
    [times_equal(self.f, self.BF.s[year])] statement receives its entries
    times the entry [s] of the 2010 row, in its own dtype: a [float64]
    column holds the products ([e00200] times [AWAGE]), an [int64] column
    the products truncated toward zero.  The fourteen columns listed stand
    for the fourteen series that [_blowup] uses as single factors. *)
Theorem increment_year_from_2009 :
  forall (self : Records) (r : row) (wt : list Q),
    _current_year self = 2009%Z ->
    loc (BF self) 2010 = Some (Some r) ->
    Weights.getitem (WT self) "WT2010" = Ok wt ->
    exists self',
      increment_year self = (self', Ok tt) /\
      current_year self' = 2010%Z /\
      getattr self' "FLPDYR" = map (fun y => y + 1) (getattr self "FLPDYR") /\
      (forall f s, In (TimesEqualBF f s) blowup_body ->
         getattr self' f
         = map (fun x => stored_in self f (x * r s)) (getattr self f)) /\
      (forall f s,
         In (f, s)
            [ ("e00200"%string, AWAGE); ("e00300"%string, AINTS);
              ("e00600"%string, ADIVS); ("e00700"%string, ATXPY);
              ("e01100"%string, ACGNS); ("e02100"%string, ASCHF);
              ("e02300"%string, AUCOMP); ("e02400"%string, ASOCSEC);
              ("e03260"%string, ASCHCI); ("e03270"%string, ACPIM);
              ("e03240"%string, AGDPN); ("e07300"%string, ABOOK);
              ("e19200"%string, AIPD); ("p25350"%string, ASCHEI) ] ->
         (forall l, getarray self f = Float64 l ->
            getattr self' f = map (fun x => x * r s) l) /\
         (forall l, getarray self f = Int64 l ->
            getattr self' f
            = map (fun z => inject_Z (truncate (inject_Z z * r s))) l)) /\
      getattr self' "s006" = map (fun w => w / 100) wt /\
      Forall2 Qeq (getattr self' "s006") (map (fun w => w * 0.01) wt).
Proof.
  intros self r wt Hyear Hrow Hwt.
  destruct (increment_year_runs self r wt)
    as (self' & Hrun & Hy & _ & _ & _ & Hs006 & Hflpdyr & Hbody).
  - rewrite Hyear. exact Hrow.
  - rewrite Hyear. exact Hwt.
  - exists self'.
    assert (Hfac : forall f s, In (TimesEqualBF f s) blowup_body ->
              store self' (alias f)
              = write_back (fun x => x * r s) (store self (alias f))).
    { intros f s Hin.
      apply (Hbody (TimesEqualBF f s) Hin).
      apply (factor_statements_keep_s006 f s Hin). }
    split; [exact Hrun|].
    split; [unfold current_year; rewrite Hy, Hyear; reflexivity|].
    split; [exact Hflpdyr|]. split.
    { intros f s Hin.
      apply (scaled_entries self self' f (fun x => x * r s)).
      apply Hfac. exact Hin. }
    split.
    { intros f s Hin.
      assert (Hb : In (TimesEqualBF f s) blowup_body).
      { simpl in Hin.
        repeat (destruct Hin as [E|Hin]; [inversion E; subst; in_body|]).
        contradiction. }
      apply (scaled_entries self self' f (fun x => x * r s)).
      apply Hfac. exact Hb. }
    split; [exact Hs006|].
    rewrite Hs006. apply Forall2_map_both. intro w. unfold Qdiv.
    apply Qmult_comp; [reflexivity | vm_compute; reflexivity].
Qed.

Lemma increment_year_from_2009_witness :
  _current_year Sample.recs = 2009%Z /\
  loc (BF Sample.recs) 2010 = Some (Some Sample.factors_2010) /\
  Weights.getitem (WT Sample.recs) "WT2010" = Ok [150; 250] /\
  exists self',
    increment_year Sample.recs = (self', Ok tt) /\
    current_year self' = 2010%Z /\
    getattr self' "FLPDYR" = map (fun y => y + 1) [2009; 2009] /\
    getattr self' "e00200" = map (fun x => x * 1.05) [1000; 300] /\
    getattr self' "s006" = map (fun w => w / 100) [150; 250].
Proof.
  split; [reflexivity|]. split; [reflexivity|]. split; [reflexivity|].
  destruct (increment_year_from_2009 Sample.recs Sample.factors_2010 [150; 250])
    as (self' & Hrun & Hy & Hf & _ & He & Hs & _); try reflexivity.
  exists self'. split; [exact Hrun|]. split; [exact Hy|].
  split; [exact Hf|]. split; [|exact Hs].
  apply (He "e00200"%string AWAGE); [left; reflexivity | reflexivity].
Defined.

(** C2, as stated, fails: in a year past the last row of the factor table
    the advance raises [KeyError], and the caller then sees a changed
    [current_year] and a changed [FLPDYR]. *)
Lemma failed_advance_not_atomic :
  loc (BF Sample.recs_2010) (_current_year Sample.recs_2010 + 1) = None /\
  exists self',
    increment_year Sample.recs_2010 = (self', Raise KeyError) /\
    _current_year self' <> _current_year Sample.recs_2010 /\
    getattr self' "FLPDYR" <> getattr Sample.recs_2010 "FLPDYR".
Proof.
  split; [reflexivity|].
  exists (fst (increment_year Sample.recs_2010)).
  split; [reflexivity|]. split; vm_compute; intro H; discriminate H.
Qed.

(** C2, amended.  When the normalised factor table has no row for
    [current_year + 1], [increment_year] raises [KeyError], a [LookupError],
    at the first factor it reads.  By then [current_year] and every entry of
    [FLPDYR] have been incremented by 1; every other column and both tables
    are as before the call. *)
Theorem increment_year_missing_row :
  forall self : Records,
    loc (BF self) (_current_year self + 1) = None ->
    exists self',
      increment_year self = (self', Raise KeyError) /\
      is_LookupError KeyError = true /\
      _current_year self' = (_current_year self + 1)%Z /\
      getattr self' "FLPDYR" = map (fun y => y + 1) (getattr self "FLPDYR") /\
      (forall name, alias name <> "FLPDYR"%string ->
         getattr self' name = getattr self name) /\
      dim self' = dim self /\ BF self' = BF self /\ WT self' = WT self.
Proof.
  intros self Hrow.
  destruct (year_advanced self) as (D2 & Y2 & B2 & W2 & F2 & S2).
  remember (in_place (set_current_year self (_current_year self + 1))
                     "FLPDYR" (fun y => y + 1)) as self2 eqn:E2.
  exists self2.
  split.
  - unfold increment_year, bind, modify, get_self. rewrite <- E2.
    unfold _blowup. rewrite blowup_body_head.
    change (exec_all ?y (?st :: ?rest))
      with (bind (exec y st) (fun _ => exec_all y rest)).
    unfold bind. rewrite exec_KeyError; [reflexivity | | exact I].
    rewrite Y2, B2. exact Hrow.
  - split; [reflexivity|]. split; [exact Y2|]. split; [exact F2|].
    split; [|repeat split; assumption].
    intros name Hname. unfold getattr, arrays. rewrite S2; [reflexivity|].
    apply String.eqb_neq. exact Hname.
Qed.

Lemma increment_year_missing_row_witness :
  loc (BF Sample.recs_2010) (_current_year Sample.recs_2010 + 1) = None /\
  exists self',
    increment_year Sample.recs_2010 = (self', Raise KeyError) /\
    _current_year self' = 2011%Z /\
    getattr self' "FLPDYR" = map (fun y => y + 1) [2009; 2009] /\
    getattr self' "e00200" = [1000; 300].
Proof.
  split; [reflexivity|].
  destruct (increment_year_missing_row Sample.recs_2010)
    as (self' & Hrun & _ & Hy & Hf & Hrest & _); [reflexivity|].
  exists self'. split; [exact Hrun|]. split; [exact Hy|]. split; [exact Hf|].
  apply (Hrest "e00200"%string). vm_compute. intro H. discriminate H.
Defined.

(** The two branches of a sign test. *)
Lemma np_ge_0_cases :
  forall (x : Q) (P : bool -> Prop),
    (0 <= x -> P true) -> (x < 0 -> P false) -> P (np_ge x 0).
Proof.
  intros x P Hpos Hneg. unfold np_ge. destruct (Qle_bool 0 x) eqn:E.
  - apply Hpos. apply Qle_bool_iff. exact E.
  - apply Hneg. apply Qnot_le_lt. intro H. apply Qle_bool_iff in H.
    congruence.
Qed.

Lemma where_sign_cases :
  forall (fp fn x : Q) (c : Q -> Q),
    (0 <= x -> c (where_sign fp fn x) = c (x * fp)) /\
    (x < 0 -> c (where_sign fp fn x) = c (x * fn)).
Proof.
  intros fp fn x c. unfold where_sign. apply np_ge_0_cases; intro H; simpl.
  - split; [reflexivity|]. intro Hneg.
    exfalso. apply (Qlt_not_le _ _ Hneg H).
  - split; [|reflexivity]. intro Hpos.
    exfalso. apply (Qlt_not_le _ _ H Hpos).
Qed.

Lemma where_nonneg_cases :
  forall (fp x : Q) (c : Q -> Q),
    (0 <= x -> c (where_nonneg fp x) = c (x * fp)) /\
    (x < 0 -> c (where_nonneg fp x) = c x).
Proof.
  intros fp x c. unfold where_nonneg. apply np_ge_0_cases; intro H; simpl.
  - split; [reflexivity|]. intro Hneg.
    exfalso. apply (Qlt_not_le _ _ Hneg H).
  - split; [|reflexivity]. intro Hpos.
    exfalso. apply (Qlt_not_le _ _ H Hpos).
Qed.

(** C7, as stated, fails: a loss of 5 whole dollars in a column read as
    [int64], with the factor pair (1.1, 0.9), becomes -4 and not -4.5. *)
Lemma whole_loss_loses_fraction :
  loc (BF Cases.whole_numbers) (_current_year Cases.whole_numbers + 1)
    = Some (Some Sample.factors_2010) /\
  getattr Cases.whole_numbers "e00900" = [-5] /\
  Sample.factors_2010 ASCHCI = 1.1 /\
  Sample.factors_2010 ASCHCL = 0.9 /\
  exists self',
    increment_year Cases.whole_numbers = (self', Ok tt) /\
    getattr self' "e00900" = [-4] /\
    ~ Forall2 Qeq (getattr self' "e00900") [-4.5].
Proof.
  repeat (split; [reflexivity|]).
  destruct (increment_year_runs Cases.whole_numbers Sample.factors_2010 [150])
    as (self' & Hrun & _ & _ & _ & _ & _ & _ & Hbody); try reflexivity.
  exists self'. split; [exact Hrun|].
  assert (E : getattr self' "e00900" = [-4]).
  { destruct (scaled_entries Cases.whole_numbers self' "e00900"
                (where_sign (Sample.factors_2010 ASCHCI)
                            (Sample.factors_2010 ASCHCL)))
      as (_ & _ & Hint).
    - apply (Hbody (WhereSign "e00900" ASCHCI ASCHCL)); [in_body|].
      vm_compute. discriminate.
    - rewrite (Hint [(-5)%Z]) by reflexivity. reflexivity. }
  split; [exact E|]. rewrite E. intro H.
  inversion H as [|? ? ? ? H1 _]. vm_compute in H1. discriminate H1.
Qed.

(** C7, amended.  For each sign-dependent column ([e00900], [e00900p],
    [e00900s] with [ASCHCI]/[ASCHCL], and [e02000] with [ASCHEI]/[ASCHEL]),
    an [increment_year] into year [Y] multiplies an entry that is [>= 0] by
    the gain factor of row [Y] and a negative entry by the loss factor of
    row [Y], and keeps the product in the dtype of the column: as it is in
    a [float64] column, truncated toward zero in an [int64] column.  With
    the pair (1.1, 0.9) the entry -5 becomes -4.5 in a [float64] column and
    -4 in an [int64] column. *)
Theorem increment_year_sign_dependent :
  forall (self : Records) (r : row) (wt : list Q),
    loc (BF self) (_current_year self + 1) = Some (Some r) ->
    Weights.getitem (WT self) ("WT" ++ str (_current_year self + 1))%string
      = Ok wt ->
    exists self',
      increment_year self = (self', Ok tt) /\
      (forall f gain loss,
         In (f, gain, loss)
            [ ("e00900"%string, ASCHCI, ASCHCL);
              ("e00900p"%string, ASCHCI, ASCHCL);
              ("e00900s"%string, ASCHCI, ASCHCL);
              ("e02000"%string, ASCHEI, ASCHEL) ] ->
         (forall l, getarray self f = Float64 l ->
            Forall2 (fun old new =>
                       (0 <= old -> new = old * r gain) /\
                       (old < 0 -> new = old * r loss))
                    l (getattr self' f)) /\
         (forall l, getarray self f = Int64 l ->
            Forall2 (fun old new =>
                       (0 <= old ->
                        new = inject_Z (truncate (old * r gain))) /\
                       (old < 0 ->
                        new = inject_Z (truncate (old * r loss))))
                    (map inject_Z l) (getattr self' f))) /\
      where_sign 1.1 0.9 (-5) == -4.5 /\
      stored (Int64 []) (where_sign 1.1 0.9 (-5)) == -4.
Proof.
  intros self r wt Hrow Hwt.
  destruct (increment_year_runs self r wt Hrow Hwt)
    as (self' & Hrun & _ & _ & _ & _ & _ & _ & Hbody).
  exists self'. split; [exact Hrun|].
  split; [|split; vm_compute; reflexivity].
  intros f gain loss Hin.
  assert (Hst : In (WhereSign f gain loss) blowup_body /\
                written (WhereSign f gain loss) <> "s006"%string).
  { simpl in Hin.
    destruct Hin as [E|[E|[E|[E|[]]]]]; inversion E; subst;
      (split; [in_body | vm_compute; intro H; discriminate H]). }
  destruct Hst as [Hst Hne].
  destruct (scaled_entries self self' f (where_sign (r gain) (r loss))
              (Hbody _ Hst Hne)) as (_ & Hfloat & Hint).
  split.
  - intros l Hl. rewrite (Hfloat l Hl). apply Forall2_map_same. intro x.
    apply (where_sign_cases (r gain) (r loss) x (fun y => y)).
  - intros l Hl. rewrite (Hint l Hl). apply Forall2_map_both. intro z.
    apply (where_sign_cases (r gain) (r loss) (inject_Z z)
             (fun y => inject_Z (truncate y))).
Qed.

Lemma increment_year_sign_dependent_witness :
  loc (BF Sample.recs) (_current_year Sample.recs + 1)
    = Some (Some Sample.factors_2010) /\
  Weights.getitem (WT Sample.recs)
                  ("WT" ++ str (_current_year Sample.recs + 1))%string
    = Ok [150; 250] /\
  exists self',
    increment_year Sample.recs = (self', Ok tt) /\
    Forall2 (fun old new =>
               (0 <= old -> new = old * 1.1) /\ (old < 0 -> new = old * 0.9))
            [-5; 40] (getattr self' "e00900").
Proof.
  split; [reflexivity|]. split; [reflexivity|].
  destruct (increment_year_sign_dependent Sample.recs Sample.factors_2010
              [150; 250]) as (self' & Hrun & Hsign & _); try reflexivity.
  exists self'. split; [exact Hrun|].
  apply (Hsign "e00900"%string ASCHCI ASCHCL); [left; reflexivity|].
  reflexivity.
Defined.

(** C8, as stated, fails: a gain of 11 whole dollars in a column read as
    [int64], with [ACGNS] 1.2, becomes 13 and not the product 13.2. *)
Lemma whole_gain_loses_fraction :
  loc (BF Cases.whole_numbers) (_current_year Cases.whole_numbers + 1)
    = Some (Some Sample.factors_2010) /\
  getattr Cases.whole_numbers "e01000" = [11] /\
  Sample.factors_2010 ACGNS = 1.2 /\
  exists self',
    increment_year Cases.whole_numbers = (self', Ok tt) /\
    getattr self' "e01000" = [13] /\
    ~ Forall2 Qeq (getattr self' "e01000") (map (fun x => x * 1.2) [11]).
Proof.
  repeat (split; [reflexivity|]).
  destruct (increment_year_runs Cases.whole_numbers Sample.factors_2010 [150])
    as (self' & Hrun & _ & _ & _ & _ & _ & _ & Hbody); try reflexivity.
  exists self'. split; [exact Hrun|].
  assert (E : getattr self' "e01000" = [13]).
  { destruct (scaled_entries Cases.whole_numbers self' "e01000"
                (where_nonneg (Sample.factors_2010 ACGNS)))
      as (_ & _ & Hint).
    - apply (Hbody (WhereNonneg "e01000" ACGNS)); [in_body|].
      vm_compute. discriminate.
    - rewrite (Hint [11%Z]) by reflexivity. reflexivity. }
  split; [exact E|]. rewrite E. intro H.
  inversion H as [|? ? ? ? H1 _]. vm_compute in H1. discriminate H1.
Qed.

(** C8, amended.  An [increment_year] into year [Y] maps an entry of
    [e01000] that is [>= 0] to the entry times [ACGNS] of row [Y], kept in
    the dtype of the column (as it is in a [float64] column, truncated
    toward zero in an [int64] column), and leaves a negative entry as it
    is. *)
Theorem increment_year_capital_gains :
  forall (self : Records) (r : row) (wt : list Q),
    loc (BF self) (_current_year self + 1) = Some (Some r) ->
    Weights.getitem (WT self) ("WT" ++ str (_current_year self + 1))%string
      = Ok wt ->
    exists self',
      increment_year self = (self', Ok tt) /\
      (forall l, getarray self "e01000" = Float64 l ->
         Forall2 (fun old new =>
                    (0 <= old -> new = old * r ACGNS) /\
                    (old < 0 -> new = old))
                 l (getattr self' "e01000")) /\
      (forall l, getarray self "e01000" = Int64 l ->
         Forall2 (fun old new =>
                    (0 <= old -> new = inject_Z (truncate (old * r ACGNS))) /\
                    (old < 0 -> new = old))
                 (map inject_Z l) (getattr self' "e01000")).
Proof.
  intros self r wt Hrow Hwt.
  destruct (increment_year_runs self r wt Hrow Hwt)
    as (self' & Hrun & _ & _ & _ & _ & _ & _ & Hbody).
  exists self'. split; [exact Hrun|].
  assert (Hst : In (WhereNonneg "e01000" ACGNS) blowup_body) by in_body.
  destruct (scaled_entries self self' "e01000" (where_nonneg (r ACGNS)))
    as (_ & Hfloat & Hint).
  { apply (Hbody _ Hst). vm_compute. intro H. discriminate H. }
  split.
  - intros l Hl. rewrite (Hfloat l Hl). apply Forall2_map_same. intro x.
    apply (where_nonneg_cases (r ACGNS) x (fun y => y)).
  - intros l Hl. rewrite (Hint l Hl). apply Forall2_map_both. intro z.
    destruct (where_nonneg_cases (r ACGNS) (inject_Z z)
                (fun y => inject_Z (truncate y))) as [Hp Hn].
    split; [exact Hp|]. intro H. rewrite (Hn H), truncate_whole.
    reflexivity.
Qed.

Lemma increment_year_capital_gains_witness :
  loc (BF Sample.recs) (_current_year Sample.recs + 1)
    = Some (Some Sample.factors_2010) /\
  Weights.getitem (WT Sample.recs)
                  ("WT" ++ str (_current_year Sample.recs + 1))%string
    = Ok [150; 250] /\
  exists self',
    increment_year Sample.recs = (self', Ok tt) /\
    Forall2 (fun old new =>
               (0 <= old -> new = old * 1.2) /\ (old < 0 -> new = old))
            [-7; 10] (getattr self' "e01000").
Proof.
  split; [reflexivity|]. split; [reflexivity|].
  destruct (increment_year_capital_gains Sample.recs Sample.factors_2010
              [150; 250]) as (self' & Hrun & Hcg & _); try reflexivity.
  exists self'. split; [exact Hrun|].
  apply Hcg. reflexivity.
Defined.

(* ================================================================== *)
(** * Properties of the imputation *)

Lemma builtin_max_Qmax : forall a b, builtin_max a b == Qmax a b.
Proof.
  intros a b. unfold builtin_max. destruct (Qle_bool b a) eqn:E.
  - apply Qle_bool_iff in E. symmetry. apply Q.max_l. exact E.
  - symmetry. apply Q.max_r. apply Qlt_le_weak. apply Qnot_le_lt.
    intro H. apply Qle_bool_iff in H. congruence.
Qed.

Lemma builtin_min_Qmin : forall a b, builtin_min a b == Qmin a b.
Proof.
  intros a b. unfold builtin_min. destruct (Qle_bool a b) eqn:E.
  - apply Qle_bool_iff in E. symmetry. apply Q.min_l. exact E.
  - symmetry. apply Q.min_r. apply Qlt_le_weak. apply Qnot_le_lt.
    intro H. apply Qle_bool_iff in H. congruence.
Qed.

(** C6.  For all inputs [imputed_cmbtp_itemizer] equals
    [e62100 - min(max(0, e17500 - 0.075 max(0, e00100)), 0.025 max(0, e00100))
     + e00700 + e04470 + e21040 - max(0, e18400) - e00100 - e18500 - e20800];
    at [e17500=1000, e00100=10000, e18400=200, e62100=5000, e00700=100,
    p04470=300, e21040=50, e18500=150, e20800=80] it is -5230. *)
Theorem imputed_cmbtp_itemizer_formula :
  (forall e17500 e00100 e18400 e62100 e00700 e04470 e21040 e18500 e20800 : Q,
     imputed_cmbtp_itemizer e17500 e00100 e18400 e62100 e00700
                            e04470 e21040 e18500 e20800 ==
     e62100
     - Qmin (Qmax 0 (e17500 - 0.075 * Qmax 0 e00100)) (0.025 * Qmax 0 e00100)
     + e00700 + e04470 + e21040 - Qmax 0 e18400 - e00100 - e18500 - e20800) /\
  imputed_cmbtp_itemizer 1000 10000 200 5000 100 300 50 150 80 == -5230.
Proof.
  split; [|vm_compute; reflexivity].
  intros. unfold imputed_cmbtp_itemizer. cbv zeta.
  rewrite builtin_min_Qmin, !builtin_max_Qmax.
  assert (E : e17500 - Qmax 0 e00100 * 0.075 == e17500 - 0.075 * Qmax 0 e00100)
    by ring.
  rewrite E. reflexivity.
Qed.


Lemma nth_map_seq :
  forall A (f : nat -> A) (n a i : nat) (d : A),
    (i < n)%nat -> nth i (map f (seq a n)) d = f (a + i)%nat.
Proof.
  induction n as [|n IH]; intros a i d Hi; [lia|].
  destruct i as [|i]; simpl.
  - rewrite Nat.add_0_r. reflexivity.
  - rewrite IH by lia. f_equal. lia.
Qed.

Lemma nth_vectorized :
  forall self e i,
    (i < dim self)%nat -> nth i (vectorized self e) 0 = e (unit_at self i).
Proof.
  intros self e i Hi. unfold vectorized.
  apply (nth_map_seq _ (fun i => e (unit_at self i)) (dim self) 0 i 0 Hi).
Qed.

Lemma unit_at_setattr_array :
  forall self name a i m,
    unit_at (setattr_array self name a) i m =
    if String.eqb (alias m) (alias name) then nth i (values a) 0
    else unit_at self i m.
Proof.
  intros. unfold unit_at, getattr. rewrite arrays_setattr_array.
  destruct (String.eqb (alias m) (alias name)); reflexivity.
Qed.

Lemma unit_at_setattr :
  forall self name v i m,
    unit_at (setattr self name v) i m =
    if String.eqb (alias m) (alias name) then nth i v 0 else unit_at self i m.
Proof. intros. apply unit_at_setattr_array. Qed.

(** An assignment [self.name = <elementwise expression over self>], seen at
    record [i]. *)
Lemma unit_at_assign :
  forall self name e i m,
    (i < dim self)%nat ->
    unit_at (setattr self name (vectorized self e)) i m =
    if String.eqb (alias m) (alias name) then e (unit_at self i)
    else unit_at self i m.
Proof.
  intros. rewrite unit_at_setattr, nth_vectorized by assumption. reflexivity.
Qed.

(** An entry read from an [int64] column is a whole number. *)
Lemma unit_at_whole :
  forall self i name l,
    getarray self name = Int64 l -> Qden (unit_at self i name) = 1%positive.
Proof.
  intros self i name l H. unfold unit_at, getattr, arrays.
  unfold getarray in H. rewrite H. simpl.
  change 0 with (inject_Z 0). rewrite map_nth. reflexivity.
Qed.

Lemma whole_minus_plus :
  forall a b c : Q,
    Qden a = 1%positive -> Qden b = 1%positive -> Qden c = 1%positive ->
    Qden (a - b + c) = 1%positive.
Proof.
  intros [a da] [b db] [c dc] Ha Hb Hc. simpl in *. subst. reflexivity.
Qed.

(** The entries of [self.e62100 - self.e00100 + self.e00700], whatever the
    dtype of the result. *)
Lemma nth_combined_standard :
  forall self i,
    (i < dim self)%nat ->
    nth i (values (combined_standard self)) 0
    = unit_at self i "e62100" - unit_at self i "e00100"
      + unit_at self i "e00700".
Proof.
  intros self i Hi. unfold combined_standard, result_array.
  destruct (forallb is_int64
              [getarray self "e62100"; getarray self "e00100";
               getarray self "e00700"]) eqn:E.
  - simpl in E.
    destruct (getarray self "e62100") as [l1|] eqn:E1; [|discriminate E].
    destruct (getarray self "e00100") as [l2|] eqn:E2; [|discriminate E].
    destruct (getarray self "e00700") as [l3|] eqn:E3; [|discriminate E].
    unfold vectorized. simpl values. rewrite !map_map.
    rewrite (nth_map_seq _ _ (dim self) 0 i 0 Hi). simpl Nat.add.
    apply (stored_whole (Int64 [])).
    apply whole_minus_plus;
      [ apply (unit_at_whole self i _ l1 E1)
      | apply (unit_at_whole self i _ l2 E2)
      | apply (unit_at_whole self i _ l3 E3) ].
  - simpl values. apply nth_vectorized. exact Hi.
Qed.

(** The filing statuses 1 to 6 index [std_2009]. *)
Lemma filing_status_valid :
  forall (mars : Q) (k : Z),
    mars == inject_Z k -> (1 <= k <= 6)%Z -> valid_status mars = true.
Proof.
  intros mars k Hm Hk. unfold valid_status, take.
  assert (E : mars - 1 == inject_Z (k - 1)).
  { rewrite Hm. unfold Z.sub. rewrite inject_Z_plus. reflexivity. }
  rewrite (Qfloor_comp _ _ E), Qfloor_Z.
  rewrite (Qeq_eq_bool _ _ E). simpl negb. cbv iota.
  change (Z.of_nat (List.length std_2009)) with 7%Z.
  destruct (Z.leb_spec 0 (k - 1)); [|lia].
  destruct (Z.ltb_spec (k - 1) 7); [|lia].
  reflexivity.
Qed.

Ltac eval_name_test :=
  match goal with
  | |- context [String.eqb (alias ?a) (alias ?b)] =>
      let t := eval vm_compute in (String.eqb (alias a) (alias b)) in
      change (String.eqb (alias a) (alias b)) with t; cbv iota
  end.

Ltac unit_step Hi :=
  cbv beta;
  first [ rewrite unit_at_assign by exact Hi
        | rewrite unit_at_setattr
        | rewrite unit_at_setattr_array ];
  eval_name_test.








(* ================================================================== *)
(** * Properties of the loaders *)

(** A string that names no file, on disk or in the distribution, leaves the
    local variable of the loader unassigned: [except IOError] swallows the
    error of the fallback. *)
Lemma read_table_missing :
  forall T (w : World T) (filename path : string),
    disk w path = None ->
    egg w (path_in_egg filename) = None ->
    read_table w filename (Str path) = Ok None.
Proof.
  intros T w filename path Hdisk Hegg.
  unfold read_table, os_path_exists, resource_stream.
  rewrite Hdisk, Hegg. reflexivity.
Qed.

(** The fallback is tried: a file missing on disk is read from the
    distribution when it is there. *)
Lemma read_table_fallback :
  forall T (w : World T) (filename path : string) (t : T),
    disk w path = None ->
    egg w (path_in_egg filename) = Some t ->
    read_table w filename (Str path) = Ok (Some t).
Proof.
  intros T w filename path t Hdisk Hegg.
  unfold read_table, os_path_exists, resource_stream.
  rewrite Hdisk, Hegg. reflexivity.
Qed.

(** An argument that is neither a string nor a DataFrame does raise
    [ValueError]. *)
Lemma read_table_other :
  forall T (w : World T) (filename : string),
    read_table w filename Other = Raise ValueError.
Proof. reflexivity. Qed.

Lemma read_weights_missing :
  forall (w : World wtable) (path : string) (self : Records),
    disk w path = None ->
    egg w (path_in_egg WEIGHTS_FILENAME) = None ->
    _read_weights w (Str path) self = (self, Raise UnboundLocalError).
Proof.
  intros w path self Hdisk Hegg.
  unfold _read_weights, bind, lift.
  rewrite (read_table_missing _ w _ _ Hdisk Hegg). reflexivity.
Qed.

Lemma read_blowup_missing :
  forall (w : World table) (path : string) (self : Records),
    disk w path = None ->
    egg w (path_in_egg BLOWUP_FACTORS_FILENAME) = None ->
    _read_blowup w (Str path) self = (self, Raise UnboundLocalError).
Proof.
  intros w path self Hdisk Hegg.
  unfold _read_blowup, bind, lift.
  rewrite (read_table_missing _ w _ _ Hdisk Hegg). reflexivity.
Qed.

(** C9, the code at the failing input.  With no file on disk and none in
    the distribution, [_read_weights] and [_read_blowup] given a file name
    leave the store as it was and raise [UnboundLocalError], which is not
    the [ValueError] the claim and the class docstring announce. *)
Theorem read_missing_file_raises_UnboundLocalError :
  forall (self : Records) (path : string),
    _read_weights Sample.nothing (Str path) self
      = (self, Raise UnboundLocalError) /\
    _read_blowup Sample.nothing (Str path) self
      = (self, Raise UnboundLocalError) /\
    @Raise unit UnboundLocalError <> Raise ValueError.
Proof.
  intros self path. split; [|split].
  - apply read_weights_missing; reflexivity.
  - apply read_blowup_missing; reflexivity.
  - intro H. discriminate H.
Qed.

(* ================================================================== *)
(** * Further properties of the factor normalisation *)

Lemma normalize_adjacent_labels :
  forall (pre post : table) (y0 year : Z) (prev cur : row),
    ~ In year (map fst pre) ->
    y0 <> year ->
    loc (normalize (pre ++ (y0, prev) :: (year, cur) :: post)) year =
    Some (Some (fun s =>
                  1 + (per_capita_row cur s / per_capita_row prev s - 1))).
Proof.
  intros pre post y0 year prev cur Hpre Hne.
  rewrite normalize_growth, divide_columns_rows, map_app. simpl map.
  apply growth_adjacent; [|exact Hne].
  rewrite map_map. simpl. exact Hpre.
Qed.

(** X8.  Growth ratios compound: for three rows in a row and a column
    divided by [pop], the entries of the second and third row multiply to
    the per-capita ratio of the third row to the first, provided the
    per-capita level of the middle row is not zero. *)
Theorem normalize_growth_compounds :
  forall (pre post : table) (y0 y1 y2 : Z) (a b c : row) (s pop : series),
    ~ In y1 (map fst pre) -> ~ In y2 (map fst pre) ->
    y0 <> y1 -> y0 <> y2 -> y1 <> y2 ->
    divisor s = Some pop ->
    ~ b s / b pop == 0 ->
    let raw := pre ++ (y0, a) :: (y1, b) :: (y2, c) :: post in
    exists r1 r2,
      loc (normalize raw) y1 = Some (Some r1) /\
      loc (normalize raw) y2 = Some (Some r2) /\
      r1 s * r2 s == (c s / c pop) / (a s / a pop).
Proof.
  intros pre post y0 y1 y2 a b c s pop H1 H2 N01 N02 N12 Hdiv Hb raw.
  eexists. eexists. split; [|split].
  - unfold raw. apply normalize_adjacent_labels; assumption.
  - unfold raw.
    change (pre ++ (y0, a) :: (y1, b) :: (y2, c) :: post)
      with (pre ++ [(y0, a)] ++ (y1, b) :: (y2, c) :: post).
    rewrite app_assoc. apply normalize_adjacent_labels; [|exact N12].
    rewrite map_app, in_app_iff. simpl. intros [H|[H|[]]];
      [apply H2; exact H | apply N02; exact H].
  - cbv beta. rewrite !per_capita_row_spec, Hdiv.
    set (A := a s / a pop). set (B := b s / b pop) in *.
    set (C := c s / c pop).
    transitivity ((B * / B) * (C * / A)); [unfold Qdiv; ring|].
    rewrite Qmult_inv_r by exact Hb. unfold Qdiv. ring.
Qed.

Lemma normalize_growth_compounds_witness :
  ~ In 2010%Z (map fst (@nil (Z * row))) /\
  ~ In 2011%Z (map fst (@nil (Z * row))) /\
  2009%Z <> 2010%Z /\ 2009%Z <> 2011%Z /\ 2010%Z <> 2011%Z /\
  divisor AWAGE = Some APOPN /\
  ~ Sample.raw_2010 AWAGE / Sample.raw_2010 APOPN == 0 /\
  exists r1 r2,
    loc (normalize ([] ++ (2009%Z, Sample.raw_2009)
                       :: (2010%Z, Sample.raw_2010)
                       :: (2011%Z, Cases.raw_2011) :: [])) 2010
      = Some (Some r1) /\
    loc (normalize ([] ++ (2009%Z, Sample.raw_2009)
                       :: (2010%Z, Sample.raw_2010)
                       :: (2011%Z, Cases.raw_2011) :: [])) 2011
      = Some (Some r2) /\
    r1 AWAGE * r2 AWAGE == (242 / 121) / (200 / 100).
Proof.
  assert (Hb : ~ Sample.raw_2010 AWAGE / Sample.raw_2010 APOPN == 0)
    by (vm_compute; discriminate).
  split; [intros []|]. split; [intros []|].
  split; [discriminate|]. split; [discriminate|]. split; [discriminate|].
  split; [reflexivity|]. split; [exact Hb|].
  apply (normalize_growth_compounds [] [] 2009 2010 2011 Sample.raw_2009
           Sample.raw_2010 Cases.raw_2011 AWAGE APOPN);
    try discriminate; try (intros []); try reflexivity.
Defined.

(* ================================================================== *)
(** * Further properties of the extrapolation *)

Section BlowupAnyOutcome.

Variable year : Z.

(** A statement never touches the year, the record count or the tables, and
    it writes no array but its own, however it ends. *)
Lemma exec_frame :
  forall st self,
    let self' := fst (exec year st self) in
    dim self' = dim self /\ _current_year self' = _current_year self /\
    BF self' = BF self /\ WT self' = WT self /\
    forall n, String.eqb n (written st) = false ->
              store self' n = store self n.
Proof.
  intros st self.
  destruct st; unfold exec, bind, get_self, lift, modify, times_equal;
    simpl;
    repeat match goal with
           | |- context [Factors.getitem ?b ?s ?y] =>
               destruct (Factors.getitem b s y); simpl
           end;
    repeat split; intros n Hn; try reflexivity;
    unfold written in Hn; simpl in Hn; rewrite Hn; reflexivity.
Qed.

Lemma exec_all_frame :
  forall body self,
    let self' := fst (exec_all year body self) in
    dim self' = dim self /\ _current_year self' = _current_year self /\
    BF self' = BF self /\ WT self' = WT self /\
    forall n, (forall st, In st body -> String.eqb n (written st) = false) ->
              store self' n = store self n.
Proof.
  induction body as [|st body IH]; intro self; simpl.
  - repeat split.
  - unfold bind.
    destruct (exec_frame st self) as (D1 & Y1 & B1 & W1 & A1).
    destruct (exec year st self) as [self1 [[]|e|]]; simpl in *.
    + destruct (IH self1) as (D2 & Y2 & B2 & W2 & A2).
      rewrite D2, Y2, B2, W2, D1, Y1, B1, W1. repeat split.
      intros n Hn. rewrite A2 by (intros st' H'; apply Hn; right; exact H').
      apply A1. apply Hn. left. reflexivity.
    + repeat split; try assumption.
      intros n Hn. apply A1. apply Hn. left. reflexivity.
    + repeat split; try assumption.
      intros n Hn. apply A1. apply Hn. left. reflexivity.
Qed.

End BlowupAnyOutcome.

(** X1.  However [increment_year] ends (normally, with an exception, or on
    the NaN row), the caller finds the year advanced by one, every entry of
    [FLPDYR] advanced by one, the record count and both tables as they
    were, and every column that neither [_blowup] nor the reweighting
    writes (such as [MARS] or [wage_head]) as it was. *)
Theorem increment_year_any_outcome :
  forall self,
    let self' := fst (increment_year self) in
    _current_year self' = (_current_year self + 1)%Z /\
    dim self' = dim self /\ BF self' = BF self /\ WT self' = WT self /\
    getattr self' "FLPDYR" = map (fun y => y + 1) (getattr self "FLPDYR") /\
    (forall name,
       alias name <> "FLPDYR"%string -> alias name <> "s006"%string ->
       (forall st, In st blowup_body -> alias name <> written st) ->
       getattr self' name = getattr self name) /\
    getattr self' "MARS" = getattr self "MARS" /\
    getattr self' "wage_head" = getattr self "wage_head".
Proof.
  intro self.
  destruct (year_advanced self) as (D2 & Y2 & B2 & W2 & F2 & S2).
  remember (in_place (set_current_year self (_current_year self + 1))
                     "FLPDYR" (fun y => y + 1)) as self2 eqn:E2.
  destruct (exec_all_frame (_current_year self2) blowup_body self2)
    as (D3 & Y3 & B3 & W3 & A3).
  assert (Hrun : exists self3 o,
            exec_all (_current_year self2) blowup_body self2 = (self3, o) /\
            fst (increment_year self) =
            match o with
            | Ok _ =>
                match Weights.getitem (WT self3)
                        ("WT" ++ str (current_year self3))%string with
                | Ok wt => setattr self3 "s006" (map (fun w => w / 100) wt)
                | _ => self3
                end
            | _ => self3
            end).
  { destruct (exec_all (_current_year self2) blowup_body self2)
      as [self3 o] eqn:E3.
    exists self3, o. split; [reflexivity|].
    unfold increment_year, bind, modify, get_self, lift.
    rewrite <- E2. unfold _blowup. rewrite E3.
    destruct o as [[]|e|]; try reflexivity.
    destruct (Weights.getitem (WT self3)
                ("WT" ++ str (current_year self3))%string); reflexivity. }
  destruct Hrun as (self3 & o & E3 & Hfst).
  rewrite E3 in D3, Y3, B3, W3, A3. simpl in D3, Y3, B3, W3, A3.
  assert (Hall : forall self',
            self' = fst (increment_year self) ->
            dim self' = dim self3 /\
            _current_year self' = _current_year self3 /\
            BF self' = BF self3 /\ WT self' = WT self3 /\
            forall n, n <> "s006"%string -> store self' n = store self3 n).
  { intros self' ->. rewrite Hfst.
    destruct o as [[]|e|]; try (repeat split; reflexivity).
    destruct (Weights.getitem (WT self3)
                ("WT" ++ str (current_year self3))%string);
      try (repeat split; reflexivity).
    repeat split. intros n Hn. rewrite store_setattr.
    change (alias "s006") with "s006"%string.
    destruct (String.eqb_spec n "s006"); [contradiction | reflexivity]. }
  destruct (Hall _ eq_refl) as (D4 & Y4 & B4 & W4 & A4).
  cbv zeta.
  rewrite Y4, D4, B4, W4, Y3, D3, B3, W3, Y2, D2, B2, W2.
  assert (Hframe : forall name,
            alias name <> "FLPDYR"%string -> alias name <> "s006"%string ->
            (forall st, In st blowup_body -> alias name <> written st) ->
            getattr (fst (increment_year self)) name = getattr self name).
  { intros name Hf Hs Hb. unfold getattr, arrays.
    rewrite A4 by exact Hs. rewrite A3.
    - rewrite S2; [reflexivity|]. apply String.eqb_neq. exact Hf.
    - intros st Hin. apply String.eqb_neq. apply Hb. exact Hin. }
  assert (Hfresh : forall name,
            forallb (fun st => negb (String.eqb (alias name) (written st)))
                    blowup_body = true ->
            forall st, In st blowup_body -> alias name <> written st).
  { intros name H st Hin. rewrite forallb_forall in H.
    apply String.eqb_neq. apply negb_true_iff. apply H. exact Hin. }
  repeat split.
  - unfold getattr, arrays. rewrite A4 by (vm_compute; discriminate).
    rewrite A3 by apply blowup_body_keeps_FLPDYR.
    exact F2.
  - exact Hframe.
  - apply Hframe; try (vm_compute; discriminate).
    apply Hfresh. vm_compute. reflexivity.
  - apply Hframe; try (vm_compute; discriminate).
    apply Hfresh. vm_compute. reflexivity.
Qed.

Lemma steps_length :
  forall r body self n,
    List.length (arrays (fold_left (step r) body self) n)
    = List.length (arrays self n).
Proof.
  intros r. induction body as [|st body IH]; intros self n; simpl.
  - reflexivity.
  - rewrite IH. unfold step. rewrite arrays_in_place.
    destruct (String.eqb_spec n (alias (target st))) as [->|_];
      [|reflexivity].
    unfold getattr. apply length_map.
Qed.

(** The state [_blowup] leaves when the row of the new year is there, and
    how the reweighting ends from it. *)
Lemma increment_year_after_blowup :
  forall self r,
    loc (BF self) (_current_year self + 1) = Some (Some r) ->
    exists self3,
      _current_year self3 = (_current_year self + 1)%Z /\
      dim self3 = dim self /\ BF self3 = BF self /\ WT self3 = WT self /\
      arrays self3 "FLPDYR" = map (fun y => y + 1) (getattr self "FLPDYR") /\
      (forall st, In st blowup_body ->
         store self3 (written st)
         = write_back (scale r st) (store self (written st))) /\
      (forall n, List.length (arrays self3 n) = List.length (arrays self n)) /\
      increment_year self =
      match Weights.getitem (WT self)
              ("WT" ++ str (_current_year self + 1))%string with
      | Ok wt => (setattr self3 "s006" (map (fun w => w / 100) wt), Ok tt)
      | Raise e => (self3, Raise e)
      | Nan => (self3, Nan)
      end.
Proof.
  intros self r Hrow.
  destruct (year_advanced self) as (D2 & Y2 & B2 & W2 & F2 & S2).
  remember (in_place (set_current_year self (_current_year self + 1))
                     "FLPDYR" (fun y => y + 1)) as self2 eqn:E2.
  destruct (steps_frame r blowup_body self2) as (D3 & Y3 & B3 & W3).
  assert (L3 := steps_length r blowup_body self2).
  remember (fold_left (step r) blowup_body self2) as self3 eqn:E3.
  exists self3.
  rewrite Y3, D3, B3, W3, Y2, D2, B2, W2.
  repeat split.
  - unfold arrays. rewrite E3.
    rewrite steps_untouched by apply blowup_body_keeps_FLPDYR.
    exact F2.
  - intros st Hin. rewrite E3.
    rewrite steps_written by (apply blowup_body_distinct || exact Hin).
    rewrite S2; [reflexivity|].
    rewrite String.eqb_sym. apply blowup_body_keeps_FLPDYR. exact Hin.
  - intro n. rewrite L3.
    destruct (String.eqb_spec n "FLPDYR") as [->|Hn].
    + change (arrays self2 "FLPDYR") with (getattr self2 "FLPDYR").
      rewrite F2. unfold getattr. apply length_map.
    + unfold arrays. rewrite S2; [reflexivity|].
      apply String.eqb_neq. exact Hn.
  - unfold increment_year, bind, modify, get_self, lift.
    rewrite <- E2. unfold _blowup.
    rewrite (exec_all_steps _ r) by (rewrite Y2, B2; exact Hrow).
    rewrite <- E3. unfold current_year. rewrite Y3, W3, Y2, W2.
    destruct (Weights.getitem (WT self)
                ("WT" ++ str (_current_year self + 1))%string);
      reflexivity.
Qed.

(** A weight table either has the column or raises [KeyError]. *)
Lemma weights_getitem_cases :
  forall wt name,
    (exists col, Weights.getitem wt name = Ok col) \/
    Weights.getitem wt name = Raise KeyError.
Proof.
  induction wt as [|[n col] wt IH]; intro name; simpl.
  - right. reflexivity.
  - destruct (String.eqb n name); [left; exists col; reflexivity | apply IH].
Qed.

(** X2.  When the factor table has the row of the new year but the weight
    table has no column for it, [increment_year] raises [KeyError] only
    after [_blowup] has run: the year and [FLPDYR] are advanced, every
    column of [_blowup] holds what its statement computes, kept in the
    dtype of the column ([e00200] the products with [AWAGE] in a [float64]
    column, the products truncated toward zero in an [int64] column), and
    [s006] holds its old entries times the constant 1 of its [times_equal]
    statement, not new weights. *)
Theorem increment_year_missing_weights :
  forall self r,
    loc (BF self) (_current_year self + 1) = Some (Some r) ->
    Weights.getitem (WT self) ("WT" ++ str (_current_year self + 1))%string
      = Raise KeyError ->
    exists self',
      increment_year self = (self', Raise KeyError) /\
      _current_year self' = (_current_year self + 1)%Z /\
      getattr self' "FLPDYR" = map (fun y => y + 1) (getattr self "FLPDYR") /\
      (forall st, In st blowup_body ->
         arrays self' (written st)
         = map (fun x => stored (store self (written st)) (scale r st x))
               (arrays self (written st))) /\
      (forall l, getarray self "e00200" = Float64 l ->
         getattr self' "e00200" = map (fun x => x * r AWAGE) l) /\
      (forall l, getarray self "e00200" = Int64 l ->
         getattr self' "e00200"
         = map (fun z => inject_Z (truncate (inject_Z z * r AWAGE))) l) /\
      getattr self' "s006" = map (fun w => w * 1) (getattr self "s006").
Proof.
  intros self r Hrow Hwt.
  destruct (increment_year_after_blowup self r Hrow)
    as (self3 & Y & _ & _ & _ & F & S & _ & Hrun).
  rewrite Hwt in Hrun.
  exists self3. split; [exact Hrun|]. split; [exact Y|].
  split; [exact F|]. split.
  { intros st Hin. apply written_entries. apply S. exact Hin. }
  assert (He : In (TimesEqualBF "e00200" AWAGE) blowup_body) by in_body.
  destruct (scaled_entries self self3 "e00200" (fun x => x * r AWAGE)
              (S _ He)) as (_ & Hfloat & Hint).
  split; [exact Hfloat|]. split; [exact Hint|].
  assert (Hs : In (TimesEqualOne "s006") blowup_body) by in_body.
  unfold getattr, arrays.
  change (alias "s006") with (written (TimesEqualOne "s006")).
  rewrite (S _ Hs).
  apply values_write_back_whole. intro z. reflexivity.
Qed.

Lemma increment_year_missing_weights_witness :
  loc (BF Cases.no_weights) (_current_year Cases.no_weights + 1)
    = Some (Some Sample.factors_2010) /\
  Weights.getitem (WT Cases.no_weights)
    ("WT" ++ str (_current_year Cases.no_weights + 1))%string
    = Raise KeyError /\
  exists self',
    increment_year Cases.no_weights = (self', Raise KeyError) /\
    _current_year self' = 2010%Z /\
    getattr self' "e00200" = map (fun x => x * 1.05) [1000; 300] /\
    getattr self' "s006" = map (fun w => w * 1) [0; 0].
Proof.
  split; [reflexivity|]. split; [reflexivity|].
  destruct (increment_year_missing_weights Cases.no_weights
              Sample.factors_2010)
    as (self' & Hrun & Hy & _ & _ & He & _ & Hs); try reflexivity.
  exists self'. split; [exact Hrun|]. split; [exact Hy|].
  split; [apply He; reflexivity | exact Hs].
Defined.

(** X3.  An [increment_year] that returns leaves every column of a
    [times_equal(self.f, 1.)] statement other than [s006] (adjusted gross
    income [e00100], [p04470], [RECID], ...) with entries equal to the old
    ones. *)
Theorem increment_year_constant_columns :
  forall (self : Records) (r : row) (wt : list Q),
    loc (BF self) (_current_year self + 1) = Some (Some r) ->
    Weights.getitem (WT self) ("WT" ++ str (_current_year self + 1))%string
      = Ok wt ->
    exists self',
      increment_year self = (self', Ok tt) /\
      (forall f, In (TimesEqualOne f) blowup_body -> f <> "s006"%string ->
         Forall2 Qeq (getattr self f) (getattr self' f)) /\
      Forall2 Qeq (getattr self "e00100") (getattr self' "e00100").
Proof.
  intros self r wt Hrow Hwt.
  destruct (increment_year_runs self r wt Hrow Hwt)
    as (self' & Hrun & _ & _ & _ & _ & _ & _ & Hbody).
  exists self'. split; [exact Hrun|].
  assert (Hone : forall f, In (TimesEqualOne f) blowup_body ->
            f <> "s006"%string ->
            Forall2 Qeq (getattr self f) (getattr self' f)).
  { intros f Hin Hne.
    assert (Ha : alias f = f).
    { assert (H : forallb (fun st => String.eqb (written st) (target st))
                          blowup_body = true) by (vm_compute; reflexivity).
      rewrite forallb_forall in H. apply String.eqb_eq.
      apply (H _ Hin). }
    unfold getattr, arrays.
    change (alias f) with (written (TimesEqualOne f)).
    rewrite (Hbody _ Hin) by (unfold written; simpl; rewrite Ha; exact Hne).
    rewrite (values_write_back_whole (scale r (TimesEqualOne f)))
      by (intro z; reflexivity).
    apply Forall2_map_same. intro x. simpl. symmetry. apply Qmult_1_r. }
  split; [exact Hone|].
  apply Hone; [in_body | discriminate].
Qed.

Lemma increment_year_constant_columns_witness :
  loc (BF Sample.recs) (_current_year Sample.recs + 1)
    = Some (Some Sample.factors_2010) /\
  Weights.getitem (WT Sample.recs)
                  ("WT" ++ str (_current_year Sample.recs + 1))%string
    = Ok [150; 250] /\
  exists self',
    increment_year Sample.recs = (self', Ok tt) /\
    Forall2 Qeq (getattr Sample.recs "e00100") (getattr self' "e00100").
Proof.
  split; [reflexivity|]. split; [reflexivity|].
  destruct (increment_year_constant_columns Sample.recs Sample.factors_2010
              [150; 250]) as (self' & Hrun & _ & H); try reflexivity.
  exists self'. split; [exact Hrun | exact H].
Defined.

(** X4.  The second names that [_read_data] gives to seven arrays see what
    [_blowup] does to them: after an [increment_year] that returns,
    [e22250] and [e23250] hold their entries times [ACGNS], [e25470] times
    [ASCHEI], [e08000], [e60100] and [e27860] times [ATXPY], each product
    kept in the dtype of the array (as it is in a [float64] array,
    truncated toward zero in an [int64] array), and each name still reads
    the same array as its [p] or [s] name. *)
Theorem increment_year_aliases :
  forall (self : Records) (r : row) (wt : list Q),
    loc (BF self) (_current_year self + 1) = Some (Some r) ->
    Weights.getitem (WT self) ("WT" ++ str (_current_year self + 1))%string
      = Ok wt ->
    exists self',
      increment_year self = (self', Ok tt) /\
      forall e p s,
        In (e, p, s)
           [ ("e22250"%string, "p22250"%string, ACGNS);
             ("e23250"%string, "p23250"%string, ACGNS);
             ("e25470"%string, "p25470"%string, ASCHEI);
             ("e08000"%string, "p08000"%string, ATXPY);
             ("e60100"%string, "p60100"%string, ATXPY);
             ("e27860"%string, "s27860"%string, ATXPY) ] ->
        (forall l, getarray self p = Float64 l ->
           getattr self' e = map (fun x => x * r s) l) /\
        (forall l, getarray self p = Int64 l ->
           getattr self' e
           = map (fun z => inject_Z (truncate (inject_Z z * r s))) l) /\
        getattr self' e = getattr self' p.
Proof.
  intros self r wt Hrow Hwt.
  destruct (increment_year_runs self r wt Hrow Hwt)
    as (self' & Hrun & _ & _ & _ & _ & _ & _ & Hbody).
  exists self'. split; [exact Hrun|].
  intros e p s Hin. simpl in Hin.
  destruct Hin as [E|[E|[E|[E|[E|[E|[]]]]]]]; inversion E; subst;
    match goal with
    | |- (forall l, getarray _ ?p0 = _ -> _ = map (fun x => x * r ?s0) l)
         /\ _ =>
        destruct (scaled_entries self self' p0 (fun x => x * r s0))
          as (_ & Hfloat & Hint);
          [ apply (Hbody (TimesEqualBF p0 s0));
              [in_body | vm_compute; discriminate]
          | split; [exact Hfloat | split; [exact Hint | reflexivity]] ]
    end.
Qed.

Lemma increment_year_aliases_witness :
  loc (BF Cases.whole_numbers) (_current_year Cases.whole_numbers + 1)
    = Some (Some Sample.factors_2010) /\
  Weights.getitem (WT Cases.whole_numbers)
                  ("WT" ++ str (_current_year Cases.whole_numbers + 1))%string
    = Ok [150] /\
  getattr Cases.whole_numbers "e22250" = [7] /\
  exists self',
    increment_year Cases.whole_numbers = (self', Ok tt) /\
    getattr self' "e22250" = [8] /\
    getattr self' "p22250" = [8].
Proof.
  split; [reflexivity|]. split; [reflexivity|]. split; [reflexivity|].
  destruct (increment_year_aliases Cases.whole_numbers Sample.factors_2010
              [150]) as (self' & Hrun & H); try reflexivity.
  exists self'. split; [exact Hrun|].
  destruct (H "e22250"%string "p22250"%string ACGNS) as (_ & Hint & Hsame);
    [left; reflexivity|].
  rewrite <- Hsame. split; apply (Hint [7%Z]); reflexivity.
Defined.

(** X5.  Two year-advances in a row: with factor rows and weight columns
    for both years the second call starts from what the first left, so the
    year and [FLPDYR] move by two, [s006] holds the weights of the second
    year, and a single-factor column is multiplied by the factor of the
    first year, kept in the dtype of the column, and the result by the
    factor of the second year, kept in that dtype again: an [int64] column
    is truncated toward zero after each year. *)
Theorem increment_year_twice :
  forall (self : Records) (r1 r2 : row) (wt1 wt2 : list Q),
    loc (BF self) (_current_year self + 1) = Some (Some r1) ->
    loc (BF self) (_current_year self + 2) = Some (Some r2) ->
    Weights.getitem (WT self) ("WT" ++ str (_current_year self + 1))%string
      = Ok wt1 ->
    Weights.getitem (WT self) ("WT" ++ str (_current_year self + 2))%string
      = Ok wt2 ->
    exists self'',
      (increment_year ;; increment_year) self = (self'', Ok tt) /\
      _current_year self'' = (_current_year self + 2)%Z /\
      getattr self'' "FLPDYR"
        = map (fun y => y + 1) (map (fun y => y + 1) (getattr self "FLPDYR")) /\
      (forall f s, In (TimesEqualBF f s) blowup_body ->
         (forall l, getarray self f = Float64 l ->
            getattr self'' f
            = map (fun x => x * r2 s) (map (fun x => x * r1 s) l)) /\
         (forall l, getarray self f = Int64 l ->
            getattr self'' f
            = map (fun z => inject_Z (truncate (inject_Z z * r2 s)))
                  (map (fun z => truncate (inject_Z z * r1 s)) l))) /\
      getattr self'' "s006" = map (fun w => w / 100) wt2.
Proof.
  intros self r1 r2 wt1 wt2 Hr1 Hr2 Hw1 Hw2.
  destruct (increment_year_runs self r1 wt1 Hr1 Hw1)
    as (self' & Hrun1 & Y1 & _ & B1 & W1 & _ & F1 & S1).
  assert (E : (_current_year self' + 1 = _current_year self + 2)%Z)
    by (rewrite Y1; lia).
  destruct (increment_year_runs self' r2 wt2)
    as (self'' & Hrun2 & Y2 & _ & _ & _ & S006 & F2 & S2).
  { rewrite E, B1. exact Hr2. }
  { rewrite E, W1. exact Hw2. }
  exists self''. split.
  - unfold bind. rewrite Hrun1. exact Hrun2.
  - split; [rewrite Y2; exact E|].
    split; [rewrite F2, F1; reflexivity|].
    split; [|exact S006].
    intros f s Hin.
    assert (Hne := factor_statements_keep_s006 f s Hin).
    assert (H2 := S2 _ Hin Hne). rewrite (S1 _ Hin Hne) in H2.
    unfold getattr, arrays, getarray.
    change (alias f) with (written (TimesEqualBF f s)).
    rewrite H2.
    split; intros l ->; simpl; [rewrite ?map_map; reflexivity|].
    rewrite !map_map. reflexivity.
Qed.

Lemma increment_year_twice_witness :
  loc (BF Cases.whole_numbers) (_current_year Cases.whole_numbers + 1)
    = Some (Some Sample.factors_2010) /\
  loc (BF Cases.whole_numbers) (_current_year Cases.whole_numbers + 2)
    = Some (Some Cases.factors_2011) /\
  Weights.getitem (WT Cases.whole_numbers)
    ("WT" ++ str (_current_year Cases.whole_numbers + 1))%string = Ok [150] /\
  Weights.getitem (WT Cases.whole_numbers)
    ("WT" ++ str (_current_year Cases.whole_numbers + 2))%string = Ok [175] /\
  getattr Cases.whole_numbers "e00200" = [315] /\
  exists self'',
    (increment_year ;; increment_year) Cases.whole_numbers
      = (self'', Ok tt) /\
    _current_year self'' = 2011%Z /\
    getattr self'' "e00200" = [336] /\
    getattr self'' "s006" = map (fun w => w / 100) [175].
Proof.
  split; [reflexivity|]. split; [reflexivity|].
  split; [reflexivity|]. split; [reflexivity|]. split; [reflexivity|].
  destruct (increment_year_twice Cases.whole_numbers Sample.factors_2010
              Cases.factors_2011 [150] [175])
    as (self'' & Hrun & Hy & _ & Hf & Hs); try reflexivity.
  exists self''. split; [exact Hrun|]. split; [exact Hy|].
  split; [|exact Hs].
  destruct (Hf "e00200"%string AWAGE) as (_ & Hint); [in_body|].
  apply (Hint [315%Z]). reflexivity.
Defined.

(** X6.  Alignment is kept: when every column has [dim] entries and the
    weight column of the new year has [dim] entries too, every column has
    [dim] entries after [increment_year].  In any case [s006] takes the
    length of the weight column. *)
Theorem increment_year_keeps_alignment :
  forall (self : Records) (r : row) (wt : list Q),
    loc (BF self) (_current_year self + 1) = Some (Some r) ->
    Weights.getitem (WT self) ("WT" ++ str (_current_year self + 1))%string
      = Ok wt ->
    exists self',
      increment_year self = (self', Ok tt) /\
      List.length (getattr self' "s006") = List.length wt /\
      ((forall name, List.length (getattr self name) = dim self) ->
       List.length wt = dim self ->
       forall name, List.length (getattr self' name) = dim self').
Proof.
  intros self r wt Hrow Hwt.
  destruct (increment_year_after_blowup self r Hrow)
    as (self3 & _ & D & _ & _ & _ & _ & L & Hrun).
  rewrite Hwt in Hrun.
  exists (setattr self3 "s006" (map (fun w => w / 100) wt)).
  split; [exact Hrun|]. split.
  - unfold getattr. rewrite arrays_setattr. simpl. apply length_map.
  - intros Hall Hlen name. unfold getattr. rewrite arrays_setattr.
    change (dim (setattr self3 "s006" (map (fun w => w / 100) wt)))
      with (dim self3).
    rewrite D.
    destruct (String.eqb (alias name) (alias "s006")).
    + rewrite length_map. exact Hlen.
    + rewrite L. apply (Hall name).
Qed.

Lemma sample_columns_aligned :
  forall name, List.length (getattr Sample.recs name) = dim Sample.recs.
Proof.
  intro name. unfold getattr, arrays. simpl. unfold Sample.columns.
  repeat match goal with
         | |- context [String.eqb ?a ?b] => destruct (String.eqb a b)
         end; reflexivity.
Qed.

Lemma increment_year_keeps_alignment_witness :
  loc (BF Sample.recs) (_current_year Sample.recs + 1)
    = Some (Some Sample.factors_2010) /\
  Weights.getitem (WT Sample.recs)
                  ("WT" ++ str (_current_year Sample.recs + 1))%string
    = Ok [150; 250] /\
  exists self',
    increment_year Sample.recs = (self', Ok tt) /\
    forall name, List.length (getattr self' name) = dim self'.
Proof.
  split; [reflexivity|]. split; [reflexivity|].
  destruct (increment_year_keeps_alignment Sample.recs Sample.factors_2010
              [150; 250]) as (self' & Hrun & _ & H); try reflexivity.
  exists self'. split; [exact Hrun|].
  apply H; [exact sample_columns_aligned | reflexivity].
Defined.

(* ================================================================== *)
(** * Further properties of the loaders *)

(** X9.  A string argument names a file: a file on disk is read from disk,
    whatever the distribution bundles; a name that is not on disk makes the
    loader read the bundled default file instead, whatever the name was.
    The weights become [WT] as read, the factors become [BF] after
    normalisation, and nothing else of the store changes. *)
Theorem loaders_find_file :
  forall (ww : World wtable) (wb : World table) (pw pb : string)
         (tw : wtable) (tb : table) (self : Records),
    disk ww pw = Some tw \/
    (disk ww pw = None /\ egg ww (path_in_egg WEIGHTS_FILENAME) = Some tw) ->
    disk wb pb = Some tb \/
    (disk wb pb = None /\
     egg wb (path_in_egg BLOWUP_FACTORS_FILENAME) = Some tb) ->
    _read_weights ww (Str pw) self = (set_WT self tw, Ok tt) /\
    _read_blowup wb (Str pb) self = (set_BF self (normalize tb), Ok tt).
Proof.
  intros ww wb pw pb tw tb self Hw Hb. split.
  - unfold _read_weights, bind, lift, read_table, os_path_exists,
      resource_stream, read_csv.
    destruct Hw as [Hd|[Hd He]]; rewrite Hd; simpl.
    + rewrite Hd. reflexivity.
    + rewrite He. reflexivity.
  - unfold _read_blowup, bind, lift, read_table, os_path_exists,
      resource_stream, read_csv.
    destruct Hb as [Hd|[Hd He]]; rewrite Hd; simpl.
    + rewrite Hd. reflexivity.
    + rewrite He. reflexivity.
Qed.

Lemma loaders_find_file_witness :
  (disk Cases.weights_on_disk "my_weights.csv" = Some Sample.wt \/
   (disk Cases.weights_on_disk "my_weights.csv" = None /\
    egg Cases.weights_on_disk (path_in_egg WEIGHTS_FILENAME)
      = Some Sample.wt)) /\
  (disk Cases.factors_in_egg "no_such_file.csv" = Some Sample.raw \/
   (disk Cases.factors_in_egg "no_such_file.csv" = None /\
    egg Cases.factors_in_egg (path_in_egg BLOWUP_FACTORS_FILENAME)
      = Some Sample.raw)) /\
  _read_weights Cases.weights_on_disk (Str "my_weights.csv") Sample.recs
    = (set_WT Sample.recs Sample.wt, Ok tt) /\
  _read_blowup Cases.factors_in_egg (Str "no_such_file.csv") Sample.recs
    = (set_BF Sample.recs (normalize Sample.raw), Ok tt).
Proof.
  assert (Hw : disk Cases.weights_on_disk "my_weights.csv" = Some Sample.wt \/
               (disk Cases.weights_on_disk "my_weights.csv" = None /\
                egg Cases.weights_on_disk (path_in_egg WEIGHTS_FILENAME)
                  = Some Sample.wt))
    by (left; reflexivity).
  assert (Hb : disk Cases.factors_in_egg "no_such_file.csv"
                 = Some Sample.raw \/
               (disk Cases.factors_in_egg "no_such_file.csv" = None /\
                egg Cases.factors_in_egg
                    (path_in_egg BLOWUP_FACTORS_FILENAME)
                  = Some Sample.raw))
    by (right; split; reflexivity).
  split; [exact Hw|]. split; [exact Hb|].
  apply (loaders_find_file Cases.weights_on_disk Cases.factors_in_egg
           "my_weights.csv" "no_such_file.csv" Sample.wt Sample.raw
           Sample.recs Hw Hb).
Defined.

(* ================================================================== *)
(** * Further properties of the imputation *)

Lemma take_cases :
  forall a k, (exists v, take a k = Ok v) \/ take a k = Raise IndexError.
Proof.
  intros a k. unfold take.
  destruct (negb (Qeq_bool k (inject_Z (Qfloor k)))); [right; reflexivity|].
  destruct ((0 <=? Qfloor k)%Z && (Qfloor k <? Z.of_nat (List.length a))%Z);
    [left; eexists; reflexivity|].
  destruct ((- Z.of_nat (List.length a) <=? Qfloor k)%Z && (Qfloor k <? 0)%Z);
    [left; eexists; reflexivity | right; reflexivity].
Qed.

Lemma omap_raise :
  forall A B (f : A -> outcome B) (e : exn) (l : list A),
    (forall a, In a l -> (exists b, f a = Ok b) \/ f a = Raise e) ->
    (exists a, In a l /\ f a = Raise e) ->
    omap f l = Raise e.
Proof.
  induction l as [|a l IH]; intros Hall [x [Hin Hx]]; simpl in *.
  - contradiction.
  - destruct (Hall a (or_introl eq_refl)) as [[b Hb]|Hr].
    + rewrite Hb. simpl. rewrite IH; [reflexivity| |].
      * intros a' Ha'. apply Hall. right. exact Ha'.
      * destruct Hin as [->|Hin]; [congruence|].
        exists x. split; assumption.
    + rewrite Hr. reflexivity.
Qed.


(** X10.  A filing status that is no index of [std_2009] stops the
    imputation with [IndexError] at the count of extra standard deductions:
    the two combined-preference columns and the taxpayer count (2 for the
    filing statuses 2, 3 and 6, 1 otherwise) are already assigned, while
    the earnings-split columns and [_numextra] are as before. *)
Theorem impute_variables_bad_status :
  forall self i,
    (i < dim self)%nat ->
    valid_status (unit_at self i "MARS") = false ->
    exists self',
      _impute_variables self = (self', Raise IndexError) /\
      getattr self' "_cmbtp_itemizer" = _imputed_cmbtp_itemizer self /\
      (forall j, (j < dim self)%nat ->
         unit_at self' j "_cmbtp_standard"
         = unit_at self j "e62100" - unit_at self j "e00100"
           + unit_at self j "e00700") /\
      (forall j, (j < dim self)%nat ->
         unit_at self' j "_txpyers"
         = np_where (np_eq (unit_at self j "MARS") 2
                     || (np_eq (unit_at self j "MARS") 3
                         || np_eq (unit_at self j "MARS") 6)) 2 1) /\
      (forall name,
         In name [ "_numextra"%string; "_earning_split"%string;
                   "e00200p"%string; "e00200s"%string; "e00900p"%string;
                   "e00900s"%string; "e02100p"%string; "e02100s"%string ] ->
         getattr self' name = getattr self name).
Proof.
  intros self i Hi Hbad.
  unfold _impute_variables, bind, get_self, modify, lift. cbv beta iota.
  match goal with
  | |- context [vectorized_outcome ?s ?e] =>
      assert (Hnx : vectorized_outcome s e = Raise IndexError)
  end.
  { unfold vectorized_outcome. apply omap_raise.
    - intros j Hj. apply in_seq in Hj. cbv beta.
      match goal with
      | |- context [take std_2009 ?k] =>
          destruct (take_cases std_2009 k) as [[v Hv]|Hr];
            rewrite ?Hv, ?Hr; simpl;
            [left; eexists; reflexivity | right; reflexivity]
      end.
    - exists i. split; [apply in_seq; simpl; lia|]. cbv beta.
      repeat unit_step Hi.
      unfold valid_status in Hbad.
      destruct (take_cases std_2009 (unit_at self i "MARS" - 1))
        as [[v Hv]|Hr].
      + rewrite Hv in Hbad. discriminate Hbad.
      + rewrite Hr. reflexivity. }
  rewrite Hnx.
  eexists. split; [reflexivity|]. split; [reflexivity|].
  split; [|split].
  - intros j Hj. repeat unit_step Hj.
    rewrite nth_combined_standard by exact Hj.
    repeat unit_step Hj. reflexivity.
  - intros j Hj. repeat unit_step Hj. reflexivity.
  - intros name Hin. simpl in Hin.
    destruct Hin as [<-|[<-|[<-|[<-|[<-|[<-|[<-|[<-|[]]]]]]]]];
      reflexivity.
Qed.

Lemma impute_variables_bad_status_witness :
  (1 < dim Cases.bad_status)%nat /\
  valid_status (unit_at Cases.bad_status 1 "MARS") = false /\
  exists self',
    _impute_variables Cases.bad_status = (self', Raise IndexError) /\
    unit_at self' 0 "_txpyers" = 2 /\
    unit_at self' 1 "_txpyers" = 1 /\
    getattr self' "e00200p" = [0; 0].
Proof.
  split; [apply Nat.lt_succ_diag_r|]. split; [reflexivity|].
  destruct (impute_variables_bad_status Cases.bad_status 1)
    as (self' & Hrun & _ & _ & Ht & H);
    [apply Nat.lt_succ_diag_r | reflexivity |].
  exists self'. split; [exact Hrun|].
  split; [apply (Ht 0%nat); apply Nat.lt_0_succ|].
  split; [apply (Ht 1%nat); apply Nat.lt_succ_diag_r|].
  apply (H "e00200p"%string). simpl. tauto.
Defined.



Lemma builtin_max_cases :
  forall a b, (b <= a /\ builtin_max a b = a) \/ (a < b /\ builtin_max a b = b).
Proof.
  intros a b. unfold builtin_max. destruct (Qle_bool b a) eqn:E.
  - left. split; [apply Qle_bool_iff; exact E | reflexivity].
  - right. split; [|reflexivity]. apply Qnot_le_lt. intro H.
    apply Qle_bool_iff in H. congruence.
Qed.

Lemma builtin_min_cases :
  forall a b, (a <= b /\ builtin_min a b = a) \/ (b < a /\ builtin_min a b = b).
Proof.
  intros a b. unfold builtin_min. destruct (Qle_bool a b) eqn:E.
  - left. split; [apply Qle_bool_iff; exact E | reflexivity].
  - right. split; [|reflexivity]. apply Qnot_le_lt. intro H.
    apply Qle_bool_iff in H. congruence.
Qed.

(** X11.  Bounds of the combined preference measure for itemizers.  With
    [base = e62100 + e00700 + e04470 + e21040 - e00100 - e18500 - e20800],
    the measure is at most [base] and at least
    [base - 0.025 max(0, e00100) - max(0, e18400)]: the medical adjustment
    lies between 0 and 2.5 percent of positive income.  It is [base] less
    the floored state tax alone when medical expenses do not exceed 7.5
    percent of positive income. *)
Theorem imputed_cmbtp_itemizer_bounds :
  forall e17500 e00100 e18400 e62100 e00700 e04470 e21040 e18500 e20800 : Q,
    let k := imputed_cmbtp_itemizer e17500 e00100 e18400 e62100 e00700
                                    e04470 e21040 e18500 e20800 in
    let base := e62100 + e00700 + e04470 + e21040
                - e00100 - e18500 - e20800 in
    k <= base /\
    base - 0.025 * Qmax 0 e00100 - Qmax 0 e18400 <= k /\
    (e17500 <= 0.075 * Qmax 0 e00100 -> k == base - Qmax 0 e18400).
Proof.
  intros. unfold k, base, imputed_cmbtp_itemizer. cbv zeta.
  rewrite <- !builtin_max_Qmax.
  destruct (builtin_max_cases 0 e00100) as [[H1 ->]|[H1 ->]];
  destruct (builtin_max_cases 0 e18400) as [[H2 ->]|[H2 ->]];
  match goal with
  | |- context [builtin_max 0 ?x] =>
      destruct (builtin_max_cases 0 x) as [[H3 ->]|[H3 ->]]
  end;
  match goal with
  | |- context [builtin_min ?x ?y] =>
      destruct (builtin_min_cases x y) as [[H4 ->]|[H4 ->]]
  end;
  repeat split; try lra; intro H5; lra.
Qed.











(* ================================================================== *)
(** * Properties of [_read_data] and of the constructor *)

Lemma mem_In :
  forall (n : string) (l : list string),
    existsb (String.eqb n) l = true -> In n l.
Proof.
  intros n l H. apply existsb_exists in H. destruct H as (x & Hx & E).
  apply String.eqb_eq in E. subst x. exact Hx.
Qed.

Lemma pair_mem_In :
  forall (a v : string) (l : list (string * string)),
    existsb (fun av => String.eqb (fst av) a && String.eqb (snd av) v) l
    = true ->
    In (a, v) l.
Proof.
  intros a v l H. apply existsb_exists in H. destruct H as ([a' v'] & Hx & E).
  simpl in E. apply andb_true_iff in E. destruct E as [Ea Ev].
  apply String.eqb_eq in Ea, Ev. subst. exact Hx.
Qed.

Ltac in_list := apply mem_In; vm_compute; reflexivity.
Ltac in_pairs := apply pair_mem_In; vm_compute; reflexivity.

Lemma store_setattr_array :
  forall self name a n,
    store (setattr_array self name a) n =
    if String.eqb n (alias name) then a else store self n.
Proof. reflexivity. Qed.

Lemma assign_all_frame :
  forall l self,
    dim (assign_all l self) = dim self /\
    _current_year (assign_all l self) = _current_year self /\
    BF (assign_all l self) = BF self /\ WT (assign_all l self) = WT self.
Proof.
  unfold assign_all. induction l as [|nv l IH]; intro self; simpl.
  - repeat split.
  - destruct (IH (setattr_array self (fst nv) (snd nv))) as (D & Y & B & W).
    rewrite D, Y, B, W. repeat split.
Qed.

Lemma assign_all_other :
  forall l self m,
    (forall nv, In nv l -> String.eqb m (alias (fst nv)) = false) ->
    store (assign_all l self) m = store self m.
Proof.
  unfold assign_all. induction l as [|nv l IH]; intros self m H; simpl.
  - reflexivity.
  - rewrite IH by (intros nv' H'; apply H; right; exact H').
    rewrite store_setattr_array, (H nv) by (left; reflexivity). reflexivity.
Qed.

Lemma assign_all_In :
  forall l self n a,
    distinct (map (fun nv => alias (fst nv)) l) = true ->
    In (n, a) l ->
    store (assign_all l self) (alias n) = a.
Proof.
  induction l as [|nv l IH]; intros self n a Hd Hin; simpl in *.
  - contradiction.
  - apply andb_true_iff in Hd. destruct Hd as [Hfresh Hd].
    apply negb_true_iff in Hfresh.
    destruct Hin as [->|Hin].
    + change (assign_all ((n, a) :: l) self)
        with (assign_all l (setattr_array self n a)).
      rewrite assign_all_other.
      * rewrite store_setattr_array, String.eqb_refl. reflexivity.
      * intros nv' H'. rewrite String.eqb_sym.
        apply (existsb_eqb_false _ _ Hfresh).
        apply (in_map (fun nv => alias (fst nv)) _ _ H').
    + change (assign_all (nv :: l) self)
        with (assign_all l (setattr_array self (fst nv) (snd nv))).
      apply IH; assumption.
Qed.

(** An array read from a frame holds the cells of its column, as
    amounts. *)
Lemma values_column_values :
  forall df name,
    values (column_values df name) = map (fun r => r name) (rows df).
Proof.
  intros df name. unfold column_values, rows.
  destruct (has_int64 df name) eqn:E; simpl; rewrite !map_map;
    [|reflexivity].
  unfold has_int64 in E. apply andb_true_iff in E. destruct E as [_ E].
  rewrite forallb_forall in E. apply map_ext_in. intros c Hc.
  specialize (E c Hc). destruct (c name); [reflexivity | discriminate E].
Qed.

Lemma column_present :
  forall df name,
    In name (header df) ->
    column df name = Ok (column_values df name).
Proof.
  intros df name Hin. unfold column.
  assert (E : existsb (String.eqb name) (header df) = true).
  { apply existsb_exists. exists name. split; [exact Hin|].
    apply String.eqb_refl. }
  rewrite E. reflexivity.
Qed.

Lemma column_missing :
  forall df name, ~ In name (header df) -> column df name = Raise KeyError.
Proof.
  intros df name Hin. unfold column.
  destruct (existsb (String.eqb name) (header df)) eqn:E; [|reflexivity].
  apply existsb_exists in E. destruct E as (x & Hx & Ex).
  apply String.eqb_eq in Ex. subst x. contradiction.
Qed.

Lemma read_names_ok :
  forall df names self,
    (forall av, In av names -> In (snd av) (header df)) ->
    read_names df names self
    = (assign_all (read_values df names) self, Ok tt).
Proof.
  induction names as [|[a v] names IH]; intros self H; simpl.
  - reflexivity.
  - unfold bind, lift, modify.
    rewrite (column_present df v) by (apply (H (a, v)); left; reflexivity).
    apply IH. intros av Hav. apply H. right. exact Hav.
Qed.

Lemma read_names_KeyError :
  forall df names self,
    (exists av, In av names /\ ~ In (snd av) (header df)) ->
    exists self', read_names df names self = (self', Raise KeyError).
Proof.
  induction names as [|[a v] names IH]; intros self [av [Hin Hmiss]].
  - contradiction.
  - simpl. unfold bind, lift, modify.
    destruct (in_dec string_dec v (header df)) as [Hv|Hv].
    + rewrite (column_present df v Hv).
      apply IH. destruct Hin as [<-|Hin]; [contradiction|].
      exists av. split; assumption.
    + rewrite (column_missing df v Hv). eexists. reflexivity.
Qed.

Lemma zero_names_ok :
  forall names self,
    zero_names names self
    = (assign_all (zero_values (dim self) names) self, Ok tt).
Proof.
  induction names as [|n names IH]; intro self; simpl.
  - reflexivity.
  - unfold bind, modify. rewrite IH. reflexivity.
Qed.

Lemma assign_all_app :
  forall l1 l2 self,
    assign_all (l1 ++ l2) self = assign_all l2 (assign_all l1 self).
Proof. intros. unfold assign_all. apply fold_left_app. Qed.

Lemma read_assignments_names :
  forall kept, map fst (read_assignments kept) = declared_names.
Proof.
  intro kept. unfold read_assignments, declared_names, read_values,
    zero_values.
  rewrite !map_app, !map_map. reflexivity.
Qed.

Lemma declared_names_distinct :
  distinct (map alias declared_names) = true.
Proof. vm_compute. reflexivity. Qed.

Lemma read_assignments_distinct :
  forall kept,
    distinct (map (fun nv => alias (fst nv)) (read_assignments kept)) = true.
Proof.
  intro kept. rewrite <- (map_map fst alias), read_assignments_names.
  apply declared_names_distinct.
Qed.

(** [_read_data] on a DataFrame that has every column of [NAMES]. *)
Lemma read_data_runs :
  forall (w : World Frame) (df : Frame) (self : Records),
    (forall av, In av NAMES -> In (snd av) (header df)) ->
    _read_data w (DataFrame df) self
    = (assign_all (read_assignments (drop_aggregate df))
         (set_dim self (List.length (rows (drop_aggregate df)))),
       Ok tt).
Proof.
  intros w df self Hcols.
  unfold _read_data, bind, lift, modify. cbv zeta.
  rewrite read_names_ok by exact Hcols.
  rewrite zero_names_ok.
  unfold read_assignments. rewrite !assign_all_app.
  destruct (assign_all_frame (read_values (drop_aggregate df) NAMES)
              (set_dim self (List.length (rows (drop_aggregate df)))))
    as (D1 & _).
  rewrite D1.
  destruct (assign_all_frame
              (zero_values (List.length (rows (drop_aggregate df)))
                           ZEROED_NAMES)
              (assign_all (read_values (drop_aggregate df) NAMES)
                 (set_dim self (List.length (rows (drop_aggregate df))))))
    as (D2 & _).
  change (dim (set_dim self (List.length (rows (drop_aggregate df)))))
    with (List.length (rows (drop_aggregate df))) in *.
  rewrite D2, D1. reflexivity.
Qed.

Lemma drop_aggregate_rows :
  forall df,
    rows (drop_aggregate df)
    = filter (fun r => np_ne (r "recid") 999999) (rows df).
Proof.
  intro df. unfold rows, drop_aggregate. simpl.
  induction (cells df) as [|c l IH]; simpl; [reflexivity|].
  destruct (np_ne (value (c "recid")) 999999); simpl; rewrite IH;
    reflexivity.
Qed.

Lemma read_assignments_lengths :
  forall kept nv,
    In nv (read_assignments kept) ->
    List.length (values (snd nv)) = List.length (rows kept).
Proof.
  intros kept nv H. unfold read_assignments, read_values, zero_values in H.
  rewrite !in_app_iff in H. destruct H as [H|[H|H]].
  - apply in_map_iff in H. destruct H as (av & <- & _). simpl.
    rewrite values_column_values. apply length_map.
  - apply in_map_iff in H. destruct H as (n & <- & _). apply repeat_length.
  - simpl in H. destruct H as [<-|[<-|[]]]; simpl.
    + apply repeat_length.
    + rewrite length_map. apply repeat_length.
Qed.

(** X16.  [_read_data] on a DataFrame that has every column of [NAMES]
    drops the rows whose [recid] is 999999 and nothing else: [dim] is the
    number of rows kept, every attribute of [NAMES] holds its column of the
    kept rows in their order, so that no entry of [RECID] is 999999, and
    each of the seven second names ([e22250], [e04470], ...) reads the
    column of its [p] or [s] name.  The year and the tables are not
    touched. *)
Theorem read_data_source_columns :
  forall (w : World Frame) (df : Frame) (self : Records),
    (forall av, In av NAMES -> In (snd av) (header df)) ->
    let kept := filter (fun r => np_ne (r "recid") 999999) (rows df) in
    exists self',
      _read_data w (DataFrame df) self = (self', Ok tt) /\
      dim self' = List.length kept /\
      (forall a v, In (a, v) NAMES ->
                   getattr self' a = map (fun r => r v) kept) /\
      Forall (fun x => ~ x == 999999) (getattr self' "RECID") /\
      (forall e p,
         In (e, p) [ ("e22250"%string, "p22250"%string);
                     ("e04470"%string, "p04470"%string);
                     ("e23250"%string, "p23250"%string);
                     ("e25470"%string, "p25470"%string);
                     ("e08000"%string, "p08000"%string);
                     ("e60100"%string, "p60100"%string);
                     ("e27860"%string, "s27860"%string) ] ->
         getattr self' e = map (fun r => r p) kept) /\
      _current_year self' = _current_year self /\
      BF self' = BF self /\ WT self' = WT self.
Proof.
  intros w df self Hcols kept.
  eexists. split; [apply read_data_runs; exact Hcols|].
  destruct (assign_all_frame (read_assignments (drop_aggregate df))
              (set_dim self (List.length (rows (drop_aggregate df)))))
    as (D & Y & B & W).
  rewrite D, Y, B, W.
  assert (Hnames : forall a v, In (a, v) NAMES ->
            getattr
              (assign_all (read_assignments (drop_aggregate df))
                 (set_dim self (List.length (rows (drop_aggregate df))))) a
            = map (fun r => r v) kept).
  { intros a v Hin. unfold getattr, arrays.
    rewrite (assign_all_In _ _ a (column_values (drop_aggregate df) v)).
    - rewrite values_column_values, drop_aggregate_rows. reflexivity.
    - apply read_assignments_distinct.
    - unfold read_assignments. apply in_or_app. left.
      unfold read_values.
      apply (in_map (fun av => (fst av,
                                column_values (drop_aggregate df) (snd av)))
               _ _ Hin). }
  split; [exact (f_equal (@List.length _) (drop_aggregate_rows df))|].
  split; [exact Hnames|]. split; [|split].
  - rewrite (Hnames "RECID"%string "recid"%string)
      by in_pairs.
    apply Forall_forall. intros x Hx. apply in_map_iff in Hx.
    destruct Hx as (r & <- & Hr). unfold kept in Hr.
    apply filter_In in Hr. destruct Hr as [_ Hr].
    unfold np_ne in Hr. apply negb_true_iff in Hr.
    apply Qeq_bool_neq. exact Hr.
  - intros e p Hin. simpl in Hin.
    repeat (destruct Hin as [E|Hin];
            [inversion E; subst;
             match goal with
             | |- getattr _ _ = map (fun r => r ?c) _ =>
                 apply (Hnames c c); in_pairs
             end|]).
    contradiction.
  - repeat split.
Qed.

(** X17.  After [_read_data] every attribute of [ZEROED_NAMES] is a column
    of [dim] zeros, [_num] a column of ones and [SOIYR] a column of 2009,
    and every declared attribute has exactly [dim] entries: the columns are
    aligned. *)
Theorem read_data_declared_columns :
  forall (w : World Frame) (df : Frame) (self : Records),
    (forall av, In av NAMES -> In (snd av) (header df)) ->
    exists self',
      _read_data w (DataFrame df) self = (self', Ok tt) /\
      (forall n, In n ZEROED_NAMES -> getattr self' n = repeat 0 (dim self')) /\
      getattr self' "_num" = repeat 1 (dim self') /\
      getattr self' "SOIYR" = repeat 2009 (dim self') /\
      (forall n, In n declared_names ->
                 List.length (getattr self' n) = dim self').
Proof.
  intros w df self Hcols.
  eexists. split; [apply read_data_runs; exact Hcols|].
  destruct (assign_all_frame (read_assignments (drop_aggregate df))
              (set_dim self (List.length (rows (drop_aggregate df)))))
    as (D & _).
  rewrite D.
  change (dim (set_dim self (List.length (rows (drop_aggregate df)))))
    with (List.length (rows (drop_aggregate df))).
  assert (Hget : forall n a, In (n, a) (read_assignments (drop_aggregate df)) ->
            getattr
              (assign_all (read_assignments (drop_aggregate df))
                 (set_dim self (List.length (rows (drop_aggregate df))))) n
            = values a).
  { intros n a Hin. unfold getattr, arrays.
    rewrite (assign_all_In _ _ n a);
      [reflexivity | apply read_assignments_distinct | exact Hin]. }
  split; [|split; [|split]].
  - intros n Hn.
    apply (Hget n (Float64 (repeat 0 (List.length
                                        (rows (drop_aggregate df)))))).
    unfold read_assignments.
    apply in_or_app. right. apply in_or_app. left.
    unfold zero_values.
    apply (in_map (fun name => (name, Float64 (repeat 0 _))) _ _ Hn).
  - apply (Hget "_num"%string
             (Float64 (repeat 1 (List.length (rows (drop_aggregate df)))))).
    unfold read_assignments.
    apply in_or_app. right. apply in_or_app. right. left. reflexivity.
  - rewrite (Hget "SOIYR"%string
               (Int64 (repeat PUF_YEAR
                         (List.length (rows (drop_aggregate df)))))).
    + simpl. apply map_repeat.
    + unfold read_assignments.
      apply in_or_app. right. apply in_or_app. right. right. left.
      reflexivity.
  - intros n Hn. rewrite <- (read_assignments_names (drop_aggregate df)) in Hn.
    apply in_map_iff in Hn. destruct Hn as ([n' v] & <- & Hin).
    change (fst (n', v)) with n'. rewrite (Hget _ _ Hin).
    exact (read_assignments_lengths _ _ Hin).
Qed.

Lemma sample_frame_complete :
  forall av, In av NAMES -> In (snd av) (header Cases.frame).
Proof. intros av H. apply (in_map snd _ _ H). Qed.

Lemma read_data_source_columns_witness :
  (forall av, In av NAMES -> In (snd av) (header Cases.frame)) /\
  exists self',
    _read_data Sample.nothing (DataFrame Cases.frame) blank = (self', Ok tt) /\
    dim self' = 2%nat /\
    getattr self' "RECID" = [1; 2] /\
    getattr self' "wage_head" = [600; 300].
Proof.
  split; [exact sample_frame_complete|].
  destruct (read_data_source_columns Sample.nothing Cases.frame blank
              sample_frame_complete)
    as (self' & Hrun & Hd & Hn & _).
  exists self'. split; [exact Hrun|]. split; [exact Hd|].
  split.
  - apply (Hn "RECID"%string "recid"%string). in_pairs.
  - apply (Hn "wage_head"%string "wage_head"%string). in_pairs.
Defined.

Lemma read_data_declared_columns_witness :
  (forall av, In av NAMES -> In (snd av) (header Cases.frame)) /\
  exists self',
    _read_data Sample.nothing (DataFrame Cases.frame) blank = (self', Ok tt) /\
    getattr self' "e00200p" = repeat 0 (dim self') /\
    List.length (getattr self' "MARS") = dim self'.
Proof.
  split; [exact sample_frame_complete|].
  destruct (read_data_declared_columns Sample.nothing Cases.frame blank
              sample_frame_complete)
    as (self' & Hrun & Hz & _ & _ & Hl).
  exists self'. split; [exact Hrun|]. split.
  - apply Hz. in_list.
  - apply Hl. in_list.
Defined.

(** X18.  A DataFrame that lacks a column of [NAMES] makes [_read_data]
    raise [KeyError]. *)
Theorem read_data_missing_column :
  forall (w : World Frame) (df : Frame) (self : Records) (a v : string),
    In "recid"%string (header df) ->
    In (a, v) NAMES ->
    ~ In v (header df) ->
    exists self', _read_data w (DataFrame df) self = (self', Raise KeyError).
Proof.
  intros w df self a v _ Hin Hmiss.
  unfold _read_data, bind, lift, modify. cbv zeta.
  destruct (read_names_KeyError (drop_aggregate df) NAMES
              (set_dim self (List.length (rows (drop_aggregate df)))))
    as [self' Hrun].
  { exists (a, v). split; [exact Hin | exact Hmiss]. }
  rewrite Hrun. eexists. reflexivity.
Qed.

Lemma read_data_missing_column_witness :
  In "recid"%string (header Cases.bare) /\
  In ("MARS"%string, "mars"%string) NAMES /\
  ~ In "mars"%string (header Cases.bare) /\
  exists self',
    _read_data Sample.nothing (DataFrame Cases.bare) blank
    = (self', Raise KeyError).
Proof.
  assert (H1 : In "recid"%string (header Cases.bare))
    by (left; reflexivity).
  assert (H2 : In ("MARS"%string, "mars"%string) NAMES)
    by in_pairs.
  assert (H3 : ~ In "mars"%string (header Cases.bare))
    by (intros [H|[]]; discriminate H).
  split; [exact H1|]. split; [exact H2|]. split; [exact H3|].
  apply (read_data_missing_column Sample.nothing Cases.bare blank
           "MARS" "mars" H1 H2 H3).
Defined.

(** X19.  A data file that is not on disk makes [_read_data] raise
    [IOError] and leave the object alone: unlike the loaders of factors
    and weights it looks for no bundled file and has no handler. *)
Theorem read_data_missing_file :
  forall (w : World Frame) (path : string) (self : Records),
    disk w path = None ->
    _read_data w (Str path) self = (self, Raise IOError).
Proof.
  intros w path self Hdisk.
  unfold _read_data, bind, lift, read_csv. rewrite Hdisk. reflexivity.
Qed.

Lemma read_data_missing_file_witness :
  disk Cases.data_in_egg "puf.csv" = None /\
  _read_data Cases.data_in_egg (Str "puf.csv") blank = (blank, Raise IOError).
Proof.
  split; [reflexivity|].
  apply (read_data_missing_file Cases.data_in_egg "puf.csv" blank).
  reflexivity.
Defined.

Lemma bind_Ok :
  forall A B (m : M A) (k : A -> M B) s s' a,
    m s = (s', Ok a) -> bind m k s = k a s'.
Proof. intros A B m k s s' a H. unfold bind. rewrite H. reflexivity. Qed.

Lemma take_head :
  forall (x : Q) (l : list Q), take (x :: l) 0 = Ok x.
Proof.
  intros x l. unfold take.
  change (Qfloor 0) with 0%Z.
  change (negb (Qeq_bool 0 (inject_Z 0))) with false. cbv iota.
  change (0 <=? 0)%Z with true.
  assert (E : (0 <? Z.of_nat (List.length (x :: l)))%Z = true).
  { apply Z.ltb_lt. simpl List.length. lia. }
  rewrite E. reflexivity.
Qed.

(** The constructor once the data are read and the tables are given as
    DataFrames. *)
Lemma init_from_read :
  forall wd wb ww data bf wt sy self s1,
    _read_data wd data self = (s1, Ok tt) ->
    __init__ wd wb ww data (DataFrame bf) (DataFrame wt) sy self
    = (settle_year sy ;;
       self <- get_self ;;
       if (_current_year self =? PUF_YEAR)%Z
       then _impute_variables else ret tt)
        (set_WT (set_BF s1 (normalize bf)) wt).
Proof.
  intros wd wb ww data bf wt sy self s1 H.
  unfold __init__. rewrite (bind_Ok _ _ _ _ _ _ _ H). reflexivity.
Qed.

(** The year is settled: to the given one, or to the year of the first
    unit. *)
Lemma settle_year_ok :
  forall sy s3 y,
    sy = Year y \/
    (sy = NoYear /\
     exists x l, getattr s3 "FLPDYR" = x :: l /\ x == inject_Z y) ->
    settle_year sy s3 = (set_current_year s3 y, Ok tt).
Proof.
  intros sy s3 y [->|[-> (x & l & Hf & Hx)]].
  - reflexivity.
  - unfold settle_year, bind, get_self, lift, modify.
    rewrite Hf, take_head.
    rewrite (Qfloor_comp _ _ Hx), Qfloor_Z. reflexivity.
Qed.

(** The data [_read_data] leaves: the kept rows of the source columns and
    the zeroed columns. *)
Lemma read_data_facts :
  forall (w : World Frame) (df : Frame) (self : Records),
    (forall av, In av NAMES -> In (snd av) (header df)) ->
    let kept := filter (fun r => np_ne (r "recid") 999999) (rows df) in
    exists s1,
      _read_data w (DataFrame df) self = (s1, Ok tt) /\
      dim s1 = List.length kept /\
      (forall a v, In (a, v) NAMES ->
                   getattr s1 a = map (fun r => r v) kept) /\
      (forall n, In n ZEROED_NAMES -> getattr s1 n = repeat 0 (dim s1)).
Proof.
  intros w df self Hcols kept.
  eexists. split; [apply read_data_runs; exact Hcols|].
  destruct (assign_all_frame (read_assignments (drop_aggregate df))
              (set_dim self (List.length (rows (drop_aggregate df)))))
    as (D & _).
  rewrite D.
  change (dim (set_dim self (List.length (rows (drop_aggregate df)))))
    with (List.length (rows (drop_aggregate df))).
  split; [exact (f_equal (@List.length _) (drop_aggregate_rows df))|].
  split.
  - intros a v Hin. unfold getattr, arrays.
    rewrite (assign_all_In _ _ a (column_values (drop_aggregate df) v)).
    + rewrite values_column_values, drop_aggregate_rows. reflexivity.
    + apply read_assignments_distinct.
    + unfold read_assignments. apply in_or_app. left.
      unfold read_values.
      apply (in_map (fun av => (fst av,
                                column_values (drop_aggregate df) (snd av)))
               _ _ Hin).
  - intros n Hn. unfold getattr, arrays.
    rewrite (assign_all_In _ _ n
               (Float64 (repeat 0 (List.length (rows (drop_aggregate df)))))).
    + reflexivity.
    + apply read_assignments_distinct.
    + unfold read_assignments.
      apply in_or_app. right. apply in_or_app. left.
      unfold zero_values.
      apply (in_map (fun name => (name, Float64 (repeat 0 _))) _ _ Hn).
Qed.

(** X20.  Constructed for a year other than 2009, given as [start_year] or
    found in [FLPDYR] of the first unit kept, the object has that year, the
    source columns of the kept rows, the given weights and the normalised
    factors, and no imputation has run: every attribute of [ZEROED_NAMES],
    the six earnings-split columns among them, is zero. *)
Theorem construct_without_imputation :
  forall (wd : World Frame) (wb : World table) (ww : World wtable)
         (df : Frame) (bf : table) (wt : wtable) (sy : year_arg) (y : Z),
    (forall av, In av NAMES -> In (snd av) (header df)) ->
    let kept := filter (fun r => np_ne (r "recid") 999999) (rows df) in
    sy = Year y \/
    (sy = NoYear /\
     exists r0 rest, kept = r0 :: rest /\ r0 "flpdyr" == inject_Z y) ->
    y <> PUF_YEAR ->
    exists self',
      construct wd wb ww (DataFrame df) (DataFrame bf) (DataFrame wt) sy
        = Ok self' /\
      current_year self' = y /\
      dim self' = List.length kept /\
      BF self' = normalize bf /\ WT self' = wt /\
      (forall a v, In (a, v) NAMES ->
                   getattr self' a = map (fun r => r v) kept) /\
      (forall n, In n ZEROED_NAMES -> getattr self' n = repeat 0 (dim self')) /\
      (forall n,
         In n [ "e00200p"%string; "e00200s"%string; "e00900p"%string;
                "e00900s"%string; "e02100p"%string; "e02100s"%string ] ->
         getattr self' n = repeat 0 (dim self')).
Proof.
  intros wd wb ww df bf wt sy y Hcols kept Hsy Hy.
  destruct (read_data_facts wd df blank Hcols) as (s1 & Hrun & D & N & Z).
  fold kept in D, N.
  set (s3 := set_WT (set_BF s1 (normalize bf)) wt).
  assert (Hsettle : settle_year sy s3 = (set_current_year s3 y, Ok tt)).
  { apply settle_year_ok. destruct Hsy as [->|[-> (r0 & rest & Hk & Hx)]].
    - left. reflexivity.
    - right. split; [reflexivity|].
      exists (r0 "flpdyr"), (map (fun r => r "flpdyr") rest).
      split; [|exact Hx].
      change (getattr s3 "FLPDYR") with (getattr s1 "FLPDYR").
      rewrite (N "FLPDYR"%string "flpdyr"%string) by in_pairs.
      rewrite Hk. reflexivity. }
  exists (set_current_year s3 y).
  assert (Hz : forall n, In n ZEROED_NAMES ->
                 getattr (set_current_year s3 y) n
                 = repeat 0 (dim (set_current_year s3 y)))
    by exact Z.
  split.
  - unfold construct. rewrite (init_from_read _ _ _ _ _ _ _ _ _ Hrun).
    fold s3. rewrite (bind_Ok _ _ _ _ _ _ _ Hsettle).
    unfold bind, get_self.
    change (_current_year (set_current_year s3 y)) with y.
    destruct (Z.eqb_spec y PUF_YEAR) as [E|_]; [contradiction|].
    reflexivity.
  - split; [reflexivity|]. split; [exact D|].
    split; [reflexivity|]. split; [reflexivity|].
    split; [exact N|]. split; [exact Hz|].
    intros n Hn. apply Hz. simpl in Hn.
    repeat (destruct Hn as [<-|Hn]; [in_list|]).
    contradiction.
Qed.

Lemma construct_without_imputation_witness :
  (forall av, In av NAMES -> In (snd av) (header Cases.frame)) /\
  (Year 2013 = Year 2013 \/
   (Year 2013 = NoYear /\
    exists r0 rest,
      filter (fun r => np_ne (r "recid") 999999) (rows Cases.frame)
        = r0 :: rest /\ r0 "flpdyr" == inject_Z 2013)) /\
  2013%Z <> PUF_YEAR /\
  exists self',
    construct Sample.nothing Sample.nothing Sample.nothing
      (DataFrame Cases.frame) (DataFrame Sample.raw) (DataFrame Sample.wt)
      (Year 2013) = Ok self' /\
    current_year self' = 2013%Z /\
    dim self' = 2%nat /\
    getattr self' "e00200" = [1000; 300] /\
    getattr self' "e00200p" = repeat 0 (dim self').
Proof.
  assert (Hy : Year 2013 = Year 2013 \/
               (Year 2013 = NoYear /\
                exists r0 rest,
                  filter (fun r => np_ne (r "recid") 999999)
                         (rows Cases.frame) = r0 :: rest /\
                  r0 "flpdyr" == inject_Z 2013))
    by (left; reflexivity).
  assert (Hn : 2013%Z <> PUF_YEAR) by discriminate.
  split; [exact sample_frame_complete|]. split; [exact Hy|].
  split; [exact Hn|].
  destruct (construct_without_imputation Sample.nothing Sample.nothing
              Sample.nothing Cases.frame Sample.raw Sample.wt (Year 2013)
              2013 sample_frame_complete Hy Hn)
    as (self' & Hrun & Hyear & Hd & _ & _ & Hnames & _ & Hz).
  exists self'. split; [exact Hrun|]. split; [exact Hyear|].
  split; [exact Hd|]. split.
  - apply (Hnames "e00200"%string "e00200"%string). in_pairs.
  - apply Hz. left. reflexivity.
Defined.




(** X22.  What the constructor does with a [start_year] it cannot use,
    once its three inputs are read: a [start_year] that is neither [None]
    nor an integer raises [ValueError], and no [start_year] at all raises
    [IndexError] when no row is left after the aggregate record is dropped,
    because there is no first unit to take the year from. *)
Theorem construct_year_errors :
  forall (wd : World Frame) (wb : World table) (ww : World wtable)
         (df : Frame) (bf : table) (wt : wtable),
    (forall av, In av NAMES -> In (snd av) (header df)) ->
    construct wd wb ww (DataFrame df) (DataFrame bf) (DataFrame wt) NotAYear
      = Raise ValueError /\
    (filter (fun r => np_ne (r "recid") 999999) (rows df) = [] ->
     construct wd wb ww (DataFrame df) (DataFrame bf) (DataFrame wt) NoYear
       = Raise IndexError).
Proof.
  intros wd wb ww df bf wt Hcols.
  destruct (read_data_facts wd df blank Hcols) as (s1 & Hrun & _ & N & _).
  split.
  - unfold construct. rewrite (init_from_read _ _ _ _ _ _ _ _ _ Hrun).
    reflexivity.
  - intro Hempty. unfold construct.
    rewrite (init_from_read _ _ _ _ _ _ _ _ _ Hrun).
    unfold settle_year, bind, get_self, lift.
    change (getattr (set_WT (set_BF s1 (normalize bf)) wt) "FLPDYR")
      with (getattr s1 "FLPDYR").
    rewrite (N "FLPDYR"%string "flpdyr"%string) by in_pairs.
    rewrite Hempty. reflexivity.
Qed.

Lemma construct_year_errors_witness :
  (forall av, In av NAMES -> In (snd av) (header Cases.only_aggregate)) /\
  construct Sample.nothing Sample.nothing Sample.nothing
    (DataFrame Cases.only_aggregate) (DataFrame Sample.raw)
    (DataFrame Sample.wt) NotAYear = Raise ValueError /\
  construct Sample.nothing Sample.nothing Sample.nothing
    (DataFrame Cases.only_aggregate) (DataFrame Sample.raw)
    (DataFrame Sample.wt) NoYear = Raise IndexError.
Proof.
  assert (Hc : forall av, In av NAMES ->
                 In (snd av) (header Cases.only_aggregate))
    by (intros av H; apply (in_map snd _ _ H)).
  split; [exact Hc|].
  destruct (construct_year_errors Sample.nothing Sample.nothing
              Sample.nothing Cases.only_aggregate Sample.raw Sample.wt Hc)
    as (H1 & H2).
  split; [exact H1|]. apply H2. reflexivity.
Defined.

(** The filter on [recid] leaves every column its dtype. *)
Lemma drop_aggregate_dtype :
  forall df name,
    is_int64 (column_values (drop_aggregate df) name) = has_int64 df name.
Proof.
  intros df name. unfold column_values.
  assert (E : has_int64 (drop_aggregate df) name = has_int64 df name).
  { unfold has_int64 at 1. simpl. rewrite negb_involutive.
    destruct (has_int64 df name) eqn:H; [|reflexivity]. simpl.
    unfold has_int64 in H. apply andb_true_iff in H. destruct H as [_ H].
    rewrite forallb_forall in H. apply forallb_forall. intros c Hc.
    apply H. apply filter_In in Hc. apply Hc. }
  rewrite E. destruct (has_int64 df name); reflexivity.
Qed.

(** X23.  [_read_data] keeps the dtype of every input column: an attribute
    of [NAMES] is an [int64] array exactly when its column in the
    DataFrame is; it holds the integers of the kept rows when it is, and
    their amounts as a [float64] array when it is not.  The zeroed
    attributes and [_num] are [float64] arrays, [SOIYR] is an [int64]
    array. *)
Theorem read_data_keeps_dtype :
  forall (w : World Frame) (df : Frame) (self : Records),
    (forall av, In av NAMES -> In (snd av) (header df)) ->
    exists self',
      _read_data w (DataFrame df) self = (self', Ok tt) /\
      (forall a v, In (a, v) NAMES ->
         is_int64 (getarray self' a) = has_int64 df v /\
         (has_int64 df v = true ->
          getarray self' a
          = Int64 (map (fun c => as_int (c v))
                       (filter (fun c => np_ne (value (c "recid")) 999999)
                               (cells df)))) /\
         (has_int64 df v = false ->
          getarray self' a
          = Float64 (map (fun c => value (c v))
                         (filter (fun c => np_ne (value (c "recid")) 999999)
                                 (cells df))))) /\
      (forall n, In n ZEROED_NAMES -> is_int64 (getarray self' n) = false) /\
      is_int64 (getarray self' "_num") = false /\
      is_int64 (getarray self' "SOIYR") = true.
Proof.
  intros w df self Hcols.
  eexists. split; [apply read_data_runs; exact Hcols|].
  assert (Hget : forall n a, In (n, a) (read_assignments (drop_aggregate df)) ->
            getarray
              (assign_all (read_assignments (drop_aggregate df))
                 (set_dim self (List.length (rows (drop_aggregate df))))) n
            = a).
  { intros n a Hin. unfold getarray.
    apply assign_all_In; [apply read_assignments_distinct | exact Hin]. }
  split; [|split; [|split]].
  - intros a v Hin.
    rewrite (Hget a (column_values (drop_aggregate df) v)).
    + split; [apply drop_aggregate_dtype|].
      assert (E := drop_aggregate_dtype df v).
      split; intro H; rewrite H in E; unfold column_values in *;
        destruct (has_int64 (drop_aggregate df) v);
        first [reflexivity | discriminate E].
    + unfold read_assignments. apply in_or_app. left.
      unfold read_values.
      apply (in_map (fun av => (fst av,
                                column_values (drop_aggregate df) (snd av)))
               _ _ Hin).
  - intros n Hn.
    rewrite (Hget n (Float64 (repeat 0 (List.length
                                          (rows (drop_aggregate df))))));
      [reflexivity|].
    unfold read_assignments.
    apply in_or_app. right. apply in_or_app. left.
    unfold zero_values.
    apply (in_map (fun name => (name, Float64 (repeat 0 _))) _ _ Hn).
  - rewrite (Hget "_num"%string
               (Float64 (repeat 1 (List.length (rows (drop_aggregate df))))));
      [reflexivity|].
    unfold read_assignments.
    apply in_or_app. right. apply in_or_app. right. left. reflexivity.
  - rewrite (Hget "SOIYR"%string
               (Int64 (repeat PUF_YEAR
                         (List.length (rows (drop_aggregate df))))));
      [reflexivity|].
    unfold read_assignments.
    apply in_or_app. right. apply in_or_app. right. right. left.
    reflexivity.
Qed.

Lemma read_data_keeps_dtype_witness :
  (forall av, In av NAMES -> In (snd av) (header Cases.whole_frame)) /\
  exists self',
    _read_data Sample.nothing (DataFrame Cases.whole_frame) blank
      = (self', Ok tt) /\
    getarray self' "e00200" = Int64 [315%Z] /\
    getarray self' "e00300" = Float64 [1000.5].
Proof.
  assert (Hc : forall av, In av NAMES ->
                 In (snd av) (header Cases.whole_frame))
    by (intros av H; apply (in_map snd _ _ H)).
  split; [exact Hc|].
  destruct (read_data_keeps_dtype Sample.nothing Cases.whole_frame blank Hc)
    as (self' & Hrun & Hnames & _).
  exists self'. split; [exact Hrun|].
  destruct (Hnames "e00200"%string "e00200"%string) as (_ & Hint & _);
    [in_pairs|].
  destruct (Hnames "e00300"%string "e00300"%string) as (_ & _ & Hfloat);
    [in_pairs|].
  split; [apply Hint | apply Hfloat]; reflexivity.
Defined.
